(** * DataFrameChangeTracker: the diff engine, the reporter and the decorator

    A shallow embedding of [src/src/DataFrameChangeTracker.py] (the copy the
    tests import; [src/DataFrameChangeTracker.py] is the older copy of the
    same logic, with a dict in place of the dataclasses and the reporter
    written inline in the decorator).

    The program is written against pandas and against Python's built-in
    [set]; both are modelled here as far as the program uses them:
    - a frame is a row index (a list of labels) and a list of named columns,
      each with a dtype and one cell per row;
    - a Python [set] is an interface ([PySet]): its operations and what the
      language promises about them, which is membership and nothing about
      the order of iteration;
    - exceptions are values of [exn], carried by [res];
    - [print] appends to an output, a list of [event]s. *)

From stdpp Require Import base strings list gmap sorting.
From Stdlib Require Import ZArith.

Open Scope Z_scope.

(** ** Exceptions *)

Inductive exn : Type :=
  | KeyError
  | AttributeError
  | ValueError
  (** the boolean selector of a [.loc] cannot be aligned with the rows it
      selects from (the pandas releases that retry such a lookup column
      first end it with a failed assertion instead) *)
  | IndexingError.

Inductive res (A : Type) : Type :=
  | Ok (a : A)
  | Raise (e : exn).
Arguments Ok {A} a.
Arguments Raise {A} e.

#[global] Instance res_ret : MRet res := λ A a, Ok a.
#[global] Instance res_bind : MBind res := λ A B f m,
  match m with Ok a => f a | Raise e => Raise e end.

#[global] Instance exn_eq_dec : EqDecision exn.
Proof. solve_decision. Defined.

(** A loop whose body may raise: the first exception ends it. *)
Fixpoint for_each {A B : Type} (body : A → B → res A) (a : A) (l : list B) : res A :=
  match l with
  | [] => Ok a
  | x :: l' => match body a x with Ok a' => for_each body a' l' | Raise e => Raise e end
  end.

(** ** Cell values, dtypes, Series and DataFrames *)

(** A cell: a number (a Python or numpy integer, or a float with an integral
    value: [1 == 1.0] in Python), a string, or the missing-value marker NaN. *)
Inductive value : Type :=
  | VNum (n : Z)
  | VStr (s : string)
  | VNaN.

#[global] Instance value_eq_dec : EqDecision value.
Proof. solve_decision. Defined.

(** Python's [==] on cells: NaN is equal to nothing, itself included. *)
Definition py_eq (x y : value) : bool :=
  match x, y with
  | VNum a, VNum b => bool_decide (a = b)
  | VStr a, VStr b => bool_decide (a = b)
  | _, _ => false
  end.

(** Python's [!=] on cells. *)
Definition py_ne (x y : value) : bool := negb (py_eq x y).

Definition isna (x : value) : bool :=
  match x with VNaN => true | _ => false end.

Inductive dtype : Type := int64 | float64 | object.

#[global] Instance dtype_eq_dec : EqDecision dtype.
Proof. solve_decision. Defined.

(** [str(dtype)] *)
Definition dtype_str (d : dtype) : string :=
  match d with int64 => "int64" | float64 => "float64" | object => "object" end.

Record Series : Type := mkSeries {
  s_dtype : dtype;
  s_index : list Z;
  s_values : list value
}.

(** [df_data] keeps the columns in order and as pandas stores them: a name
    may occur more than once. *)
Record DataFrame : Type := mkDataFrame {
  df_index : list Z;
  df_data : list (string * (dtype * list value))
}.

(** [df.columns] *)
Definition df_columns (df : DataFrame) : list string := (df_data df).*1.

(** [len(df)] *)
Definition len (df : DataFrame) : Z := Z.of_nat (length (df_index df)).

(** What [df[col]] evaluates to: a Series when one column has that name, a
    frame of all the columns with that name when several have. *)
Inductive item : Type :=
  | ISeries (s : Series)
  | IFrame (df : DataFrame).

Definition named (col : string) (df : DataFrame) : list (string * (dtype * list value)) :=
  filter (λ kv, kv.1 = col) (df_data df).

(** [df[col]] *)
Definition getitem (df : DataFrame) (col : string) : res item :=
  match named col df with
  | [] => Raise KeyError
  | [(_, (d, vs))] => Ok (ISeries (mkSeries d (df_index df) vs))
  | cs => Ok (IFrame (mkDataFrame (df_index df) cs))
  end.

(** [.dtype]: a frame has [.dtypes] and no [.dtype]. *)
Definition get_dtype (it : item) : res dtype :=
  match it with
  | ISeries s => Ok (s_dtype s)
  | IFrame _ => Raise AttributeError
  end.

(** pandas's [array_equivalent] on two cells: equal, or both missing. *)
Definition value_equiv (x y : value) : bool := py_eq x y || (isna x && isna y).

Fixpoint array_equivalent (l r : list value) : bool :=
  match l, r with
  | [], [] => true
  | x :: l', y :: r' => value_equiv x y && array_equivalent l' r'
  | _, _ => false
  end.

(** [Series.equals]: the axes first, then [array_equals], which starts with
    the dtypes. *)
Definition Series_equals (a b : Series) : bool :=
  bool_decide (s_index a = s_index b)
  && bool_decide (s_dtype a = s_dtype b)
  && array_equivalent (s_values a) (s_values b).

Fixpoint blocks_equal (l r : list (string * (dtype * list value))) : bool :=
  match l, r with
  | [], [] => true
  | (n, (d, vs)) :: l', (n', (d', vs')) :: r' =>
      bool_decide (n = n') && bool_decide (d = d') && array_equivalent vs vs'
      && blocks_equal l' r'
  | _, _ => false
  end.

(** [NDFrame.equals]: [False] when the other object is of another class. *)
Definition equals (a b : item) : bool :=
  match a, b with
  | ISeries s, ISeries s' => Series_equals s s'
  | IFrame f, IFrame f' =>
      bool_decide (df_index f = df_index f') && blocks_equal (df_data f) (df_data f')
  | _, _ => false
  end.

(** ** Python's [set]

    The language fixes which elements a set holds and says nothing of the
    order in which a set is iterated. The program iterates sets and turns
    them into lists, so the order is part of its result; the interface
    leaves it to the instance. *)
Class PySet : Type := {
  pyset : Type;
  (** iteration: [for x in s], [list(s)] *)
  set_iter : pyset → list string;
  (** [set()] *)
  set_empty : pyset;
  (** [set(iterable)] *)
  set_from : list string → pyset;
  (** [s.add(x)] *)
  set_add : string → pyset → pyset;
  (** [a - b] *)
  set_sub : pyset → pyset → pyset;
  (** [a & b] *)
  set_and : pyset → pyset → pyset;
  set_iter_NoDup s : NoDup (set_iter s);
  elem_of_set_empty x : x ∉ set_iter set_empty;
  elem_of_set_from l x : x ∈ set_iter (set_from l) ↔ x ∈ l;
  elem_of_set_add y s x : x ∈ set_iter (set_add y s) ↔ x = y ∨ x ∈ set_iter s;
  elem_of_set_sub a b x : x ∈ set_iter (set_sub a b) ↔ x ∈ set_iter a ∧ x ∉ set_iter b;
  elem_of_set_and a b x : x ∈ set_iter (set_and a b) ↔ x ∈ set_iter a ∧ x ∈ set_iter b
}.

(** ** The report *)

Record RowChanges : Type := mkRowChanges {
  before : Z;
  after : Z;
  difference : Z
}.

(** The dataclass takes [before] and [after]; [__post_init__] sets
    [difference]. *)
Definition RowChanges_init (before after : Z) : RowChanges :=
  mkRowChanges before after (after - before).

Record ColumnChanges : Type := mkColumnChanges {
  added : list string;
  removed : list string;
  modified : list string
}.

Record DataFrameChanges : Type := mkDataFrameChanges {
  rows : RowChanges;
  columns : ColumnChanges;
  schema_changes : gmap string (string * string);
  content_changes : list string
}.

(** [DataFrameChanges(rows=rows)]: the other fields take their defaults. *)
Definition DataFrameChanges_init (rows : RowChanges) : DataFrameChanges :=
  mkDataFrameChanges rows (mkColumnChanges [] [] []) ∅ [].

Definition set_added (l : list string) (c : DataFrameChanges) : DataFrameChanges :=
  mkDataFrameChanges (rows c)
    (mkColumnChanges l (removed (columns c)) (modified (columns c)))
    (schema_changes c) (content_changes c).

Definition set_removed (l : list string) (c : DataFrameChanges) : DataFrameChanges :=
  mkDataFrameChanges (rows c)
    (mkColumnChanges (added (columns c)) l (modified (columns c)))
    (schema_changes c) (content_changes c).

(** [changes.columns.modified.append(col)] *)
Definition append_modified (col : string) (c : DataFrameChanges) : DataFrameChanges :=
  mkDataFrameChanges (rows c)
    (mkColumnChanges (added (columns c)) (removed (columns c)) (modified (columns c) ++ [col]))
    (schema_changes c) (content_changes c).

(** [changes.schema_changes[col] = {"before": b, "after": a}] *)
Definition set_schema_change (col b a : string) (c : DataFrameChanges) : DataFrameChanges :=
  mkDataFrameChanges (rows c) (columns c) (<[col := (b, a)]> (schema_changes c))
    (content_changes c).

Definition set_content_changes (l : list string) (c : DataFrameChanges) : DataFrameChanges :=
  mkDataFrameChanges (rows c) (columns c) (schema_changes c) l.

(** ** The diff engine: [compare_df] *)

Section Engine.
Context {PS : PySet}.

(** The body of [for col in common_cols]; its state is [changes] and the
    local set [content_changes]. *)
Definition compare_col (df_before df_after : DataFrame)
    (st : DataFrameChanges * pyset) (col : string) : res (DataFrameChanges * pyset) :=
  before_dtype ← getitem df_before col ≫= get_dtype;
  after_dtype ← getitem df_after col ≫= get_dtype;
  let changes :=
    if bool_decide (before_dtype ≠ after_dtype)
    then set_schema_change col (dtype_str before_dtype) (dtype_str after_dtype) st.1
    else st.1 in
  b ← getitem df_before col;
  a ← getitem df_after col;
  if negb (equals b a)
  then Ok (append_modified col changes, set_add col st.2)
  else Ok (changes, st.2).

Definition common_cols (df_before df_after : DataFrame) : pyset :=
  set_and (set_from (df_columns df_before)) (set_from (df_columns df_after)).

Definition compare_df (df_before df_after : DataFrame) : res DataFrameChanges :=
  let changes := DataFrameChanges_init (RowChanges_init (len df_before) (len df_after)) in
  let changes :=
    set_added
      (set_iter (set_sub (set_from (df_columns df_after)) (set_from (df_columns df_before))))
      changes in
  let changes :=
    set_removed
      (set_iter (set_sub (set_from (df_columns df_before)) (set_from (df_columns df_after))))
      changes in
  st ← for_each (compare_col df_before df_after) (changes, set_empty)
         (set_iter (common_cols df_before df_after));
  Ok (set_content_changes (set_iter st.2) st.1).
End Engine.

(** ** What the program prints *)

Inductive event : Type :=
  (** [Function: name] *)
  | EFunction (name : string)
  (** [Rows: before â†’ after (difference)], the difference with its sign;
      between the two numbers stand the three characters the newer copy has
      in the place of the arrow *)
  | ERows (before after difference : Z)
  (** [No row changes detected] *)
  | ENoRowChanges
  (** [Content changes in columns: [...]] *)
  | EContentChanges (cols : list string)
  (** [Changes in col:] *)
  | EChangesIn (col : string)
  (** the table [tabulate(comparison, headers="keys", showindex=False)]
      draws: the names of the columns of [comparison] and, row by row, its
      cells; the row labels are not shown. *)
  | ETable (headers : list string) (cells : list (list value))
  (** [Rows: before → after (difference)], the line of the older copy, with
      the arrow *)
  | ERowsArrow (before after difference : Z).

#[global] Instance event_eq_dec : EqDecision event.
Proof. solve_decision. Defined.

(** A computation that prints and may raise: what it printed, and its
    result. What was printed before an exception stays printed. *)
Definition IO (A : Type) : Type := list event * res A.

#[global] Instance IO_ret : MRet IO := λ A a, ([], Ok a).
#[global] Instance IO_bind : MBind IO := λ A B f m,
  match m.2 with
  | Ok a => (m.1 ++ (f a).1, (f a).2)
  | Raise e => (m.1, Raise e)
  end.

Definition print (e : event) : IO unit := ([e], Ok tt).
Definition lift {A : Type} (r : res A) : IO A := ([], r).

Fixpoint io_for_each {B : Type} (body : B → IO unit) (l : list B) : IO unit :=
  match l with
  | [] => mret tt
  | x :: l' => body x ≫= λ _, io_for_each body l'
  end.

(** ** The pandas operations of the reporter

    Row labels are taken to be distinct within a frame ([unique_labels]
    below); the definitions follow pandas for such frames. *)

(** A boolean Series, as [!=] between two Series gives. *)
Record Mask : Type := mkMask {
  m_index : list Z;
  m_values : list bool
}.

(** [Index.unique]: the labels in the order in which they first occur. *)
Fixpoint unique {A : Type} `{EqDecision A} (l : list A) : list A :=
  match l with
  | [] => []
  | x :: l' => x :: filter (λ y, y ≠ x) (unique l')
  end.

(** [a.intersection(b)]: the labels of [a] that [b] has too, each once, in
    the order of [a]. *)
Definition intersection (a b : list Z) : list Z :=
  filter (λ l, l ∈ b) (unique a).

(** The value a labelled sequence has at a label (at the first one, should
    it occur more than once). *)
Fixpoint lookup_label {V : Type} (l : Z) (idx : list Z) (vals : list V) : option V :=
  match idx, vals with
  | i :: idx', v :: vals' => if decide (i = l) then Some v else lookup_label l idx' vals'
  | _, _ => None
  end.

(** The column a [.loc[_, col]] reads. With a repeated name pandas hands
    back a frame, and the comparison or the assignment it goes into raises
    [ValueError]. *)
Definition column (df : DataFrame) (col : string) : res Series :=
  match named col df with
  | [] => Raise KeyError
  | [(_, (d, vs))] => Ok (mkSeries d (df_index df) vs)
  | _ => Raise ValueError
  end.

Definition rows_at (s : Series) (l : Z) : list (Z * value) :=
  filter (λ r, r.1 = l) (zip (s_index s) (s_values s)).

(** [s.loc[labels]] with a list of labels: the rows in the order of the
    labels; [KeyError] when a label is not in the index. *)
Definition take_labels (s : Series) (labels : list Z) : res Series :=
  if decide (Forall (λ l, l ∈ s_index s) labels)
  then let rs := labels ≫= rows_at s in Ok (mkSeries (s_dtype s) rs.*1 rs.*2)
  else Raise KeyError.

(** [df.loc[labels, col]] *)
Definition loc_labels (df : DataFrame) (labels : list Z) (col : string) : res Series :=
  column df col ≫= λ s, take_labels s labels.

(** [a != b] on two Series: only Series with the same labels compare. *)
Definition Series_ne (a b : Series) : res Mask :=
  if decide (s_index a = s_index b)
  then Ok (mkMask (s_index a) (zip_with py_ne (s_values a) (s_values b)))
  else Raise ValueError.

(** [mask.any()] *)
Definition any (m : Mask) : bool := existsb id (m_values m).

(** pandas's [check_bool_indexer]: a boolean Series used as a row selector
    is first aligned to the index it selects from; a row of the frame for
    which the selector has no entry makes the selector unalignable. *)
Definition check_bool_indexer (index : list Z) (key : Mask) : res (list bool) :=
  if decide (m_index key = index) then Ok (m_values key)
  else match mapM (λ l, lookup_label l (m_index key) (m_values key)) index with
       | Some bs => Ok bs
       | None => Raise IndexingError
       end.

(** [s.loc[mask]] *)
Definition take_mask (s : Series) (key : Mask) : res Series :=
  bs ← check_bool_indexer (s_index s) key;
  let rs := (filter (λ p, p.1 = true) (zip bs (zip (s_index s) (s_values s)))).*2 in
  Ok (mkSeries (s_dtype s) rs.*1 rs.*2).

(** [df.loc[mask, col]] *)
Definition loc_mask (df : DataFrame) (key : Mask) (col : string) : res Series :=
  column df col ≫= λ s, take_mask s key.

(** The row labels of [pd.DataFrame({"Before": b, "After": a})]: those of
    the two Series when they agree, their sorted union otherwise. *)
Definition comparison_index (b a : Series) : list Z :=
  if decide (s_index b = s_index a) then s_index b
  else merge_sort Z.le (unique (s_index b ++ s_index a)).

(** A Series brought to the row labels of a frame; NaN where it has no
    value. *)
Definition reindex (s : Series) (labels : list Z) : list value :=
  (λ l, default VNaN (lookup_label l (s_index s) (s_values s))) <$> labels.

(** The cells of [comparison], row by row. *)
Definition comparison_cells (labels : list Z) (cols : list Series) : list (list value) :=
  (λ l, (λ s, default VNaN (lookup_label l (s_index s) (s_values s))) <$> cols) <$> labels.

(** ** The reporter *)

(** [changed_mask]: the two columns, each restricted to the labels the two
    frames share, compared cell by cell with [!=]. *)
Definition changed_mask (df_before df_after : DataFrame) (col : string) : res Mask :=
  let common_indices := intersection (df_index df_before) (df_index df_after) in
  b ← loc_labels df_before common_indices col;
  a ← loc_labels df_after common_indices col;
  Series_ne b a.

(** The body of [for col in content_changes] in [_print_content_changes]. *)
Definition print_column (df_before df_after : DataFrame) (col : string) : IO unit :=
  mask ← lift (changed_mask df_before df_after col);
  if any mask then
    print (EChangesIn col);;
    Before ← lift (loc_mask df_before mask col);
    After ← lift (loc_mask df_after mask col);
    let labels := comparison_index Before After in
    if bool_decide ("name" ∈ df_columns df_before) then
      context ← lift (loc_mask df_before mask "name");
      print (ETable ["Before"; "After"; "name"]
               (comparison_cells labels [Before; After; context]))
    else
      print (ETable ["Before"; "After"] (comparison_cells labels [Before; After]))
  else mret tt.

Definition _print_content_changes (df_before df_after : DataFrame)
    (content_changes : list string) : IO unit :=
  io_for_each (print_column df_before df_after) content_changes.

Section Reporter.
Context {PS : PySet}.

(** [function_name] is [None] by default; [if function_name:] holds for a
    name that is not empty. *)
Definition analyze_dataframe_changes (df_before df_after : DataFrame)
    (function_name : option string) : IO unit :=
  changes ← lift (compare_df df_before df_after);
  match function_name with
  | Some name => if bool_decide (name ≠ "") then print (EFunction name) else mret tt
  | None => mret tt
  end;;
  (if bool_decide (difference (rows changes) ≠ 0)
   then print (ERows (before (rows changes)) (after (rows changes))
                 (difference (rows changes)))
   else print ENoRowChanges);;
  if bool_decide (content_changes changes ≠ [])
  then
    print (EContentChanges (content_changes changes));;
    _print_content_changes df_before df_after (content_changes changes)
  else mret tt.
End Reporter.

(** The rows drawn for a column: the cells of the table that follows the
    line [Changes in col:]. *)
Fixpoint display_rows (col : string) (out : list event) : list (list value) :=
  match out with
  | [] => []
  | EChangesIn c :: out' =>
      match out' with
      | ETable _ cells :: _ => if decide (c = col) then cells else []
      | _ => []
      end ++ display_rows col out'
  | _ :: out' => display_rows col out'
  end.

(** ** The decorator *)

(** An argument or a result of a wrapped function: a DataFrame, or anything
    else. *)
Inductive pyobj : Type :=
  | ODataFrame (df : DataFrame)
  | OValue (v : value)
  | ONone.

(** A Python function as the decorator sees it: called with positional and
    keyword arguments, it returns an object or raises. *)
Definition pyfunc : Type := list pyobj → list (string * pyobj) → res pyobj.

(** [isinstance(arg, pd.DataFrame)], and the copy taken when it holds *)
Definition as_dataframe (o : pyobj) : option DataFrame :=
  match o with ODataFrame df => Some df | _ => None end.

Fixpoint first_dataframe (objs : list pyobj) : option DataFrame :=
  match objs with
  | [] => None
  | o :: objs' =>
      match as_dataframe o with Some df => Some df | None => first_dataframe objs' end
  end.

Definition _find_dataframe_arg (args : list pyobj) (kwargs : list (string * pyobj))
    : option DataFrame :=
  match first_dataframe args with
  | Some df => Some df
  | None => first_dataframe kwargs.*2
  end.

Section Decorator.
(** The core the decorator hands the two frames to. *)
Variable analyze : DataFrame → DataFrame → option string → IO unit.

Definition wrapper_with (name : string) (func : pyfunc)
    (args : list pyobj) (kwargs : list (string * pyobj)) : IO pyobj :=
  let df_before := _find_dataframe_arg args kwargs in
  result ← lift (func args kwargs);
  match as_dataframe result, df_before with
  | Some df_after, Some df_before =>
      analyze df_before df_after (Some name);;
      mret result
  | _, _ => mret result
  end.
End Decorator.

(** [track_dataframe_changes(func)], [func.__name__] being [name]. *)
Definition track_dataframe_changes {PS : PySet} (name : string) (func : pyfunc)
    : list pyobj → list (string * pyobj) → IO pyobj :=
  wrapper_with analyze_dataframe_changes name func.

(** The decorator of the older copy, [src/DataFrameChangeTracker.py]. Its
    [compare_df] builds the same report as a dict; its [wrapper] has the
    search for the DataFrame argument, the analysis and the reporter written
    out in its body, prints the name of the function unconditionally, and
    writes the line on the number of rows with the arrow. *)
Definition inline_wrapper {PS : PySet} (name : string) (func : pyfunc)
    (args : list pyobj) (kwargs : list (string * pyobj)) : IO pyobj :=
  let df_before :=
    match first_dataframe args with
    | Some df => Some df
    | None => first_dataframe kwargs.*2
    end in
  result ← lift (func args kwargs);
  match as_dataframe result, df_before with
  | Some df_after, Some df_before =>
      changes ← lift (compare_df df_before df_after);
      print (EFunction name);;
      (if bool_decide (difference (rows changes) ≠ 0)
       then print (ERowsArrow (before (rows changes)) (after (rows changes))
                     (difference (rows changes)))
       else print ENoRowChanges);;
      (if bool_decide (content_changes changes ≠ [])
       then print (EContentChanges (content_changes changes))
       else mret tt);;
      io_for_each (print_column df_before df_after) (content_changes changes);;
      mret result
  | _, _ => mret result
  end.

(** ** Well-formed frames *)

(** A table snapshot: the column names are distinct and every column has
    one cell per row. *)
Record wf_df (df : DataFrame) : Prop := {
  wf_columns : NoDup (df_columns df);
  wf_cells : Forall (λ c, length c.2.2 = length (df_index df)) (df_data df)
}.

#[global] Instance wf_df_dec df : Decision (wf_df df).
Proof.
  destruct (decide (NoDup (df_columns df)
    ∧ Forall (λ c, length c.2.2 = length (df_index df)) (df_data df))) as [Hy|Hn].
  - left. destruct Hy as (?&?). by split.
  - right. intros [? ?]. apply Hn. auto.
Defined.

(** The row labels of the frame are distinct: a label names one row. pandas
    also takes frames with a repeated label; the engine does not mind them,
    the statements on the reporter leave them out. *)
Definition unique_labels (df : DataFrame) : Prop := NoDup (df_index df).

(** ** A hash table for [PySet]

    An instance in the manner of CPython's set: a table of slots that starts
    with 8 and grows as keys are added, a key sitting in the slot its hash
    selects, iteration running through the slots in order. Keys whose slots
    coincide stay next to each other (CPython probes for another slot). The
    hash of a string changes from one run of the interpreter to the next;
    [hash] stands for the one of some run. *)
Module SlotSet.

Definition hash (s : string) : N :=
  match s with
  | EmptyString => 0%N
  | String a _ => Ascii.N_of_ascii a
  end.

(** [newsize = 8; while newsize <= minused: newsize <<= 1] *)
Fixpoint grow (fuel : nat) (newsize minused : N) : N :=
  match fuel with
  | O => newsize
  | S fuel' =>
      if (newsize <=? minused)%N then grow fuel' (2 * newsize)%N minused else newsize
  end.

(** The size of the table once it holds [fill] keys, from its size before
    the last of them was added: it is resized to more than four times the
    number of keys when [fill * 5 >= mask * 3]. *)
Definition resize (size fill : N) : N :=
  if (fill * 5 <? (size - 1) * 3)%N then size else grow 64 8%N (fill * 4)%N.

Definition table_size (n : nat) : N :=
  foldl resize 8%N (N.of_nat <$> seq 1 n).

Definition slot (n : nat) (key : string) : N := (hash key mod table_size n)%N.

Definition slot_le (n : nat) (x y : string) : Prop := (slot n x ≤ slot n y)%N.

#[global] Instance slot_le_dec n x y : Decision (slot_le n x y).
Proof. unfold slot_le. apply _. Defined.

(** The keys, in the order in which the table is iterated. *)
Definition layout (keys : list string) : list string :=
  merge_sort (slot_le (length (remove_dups keys))) (remove_dups keys).

End SlotSet.

(** A set is the list of the keys added to it; [a - b] and [a & b] add the
    keys they keep in the order in which [a] is iterated. *)
#[refine] Instance slot_set : PySet := {|
  pyset := list string;
  set_iter := SlotSet.layout;
  set_empty := [];
  set_from l := l;
  set_add x s := s ++ [x];
  set_sub a b := filter (λ x, x ∉ b) (SlotSet.layout a);
  set_and a b := filter (λ x, x ∈ b) (SlotSet.layout a)
|}.
Proof.
  all: unfold SlotSet.layout.
  - intros s. rewrite merge_sort_Permutation. apply NoDup_remove_dups.
  - intros x. rewrite merge_sort_Permutation, elem_of_remove_dups. apply not_elem_of_nil.
  - intros l x. by rewrite merge_sort_Permutation, elem_of_remove_dups.
  - intros y s x.
    rewrite !merge_sort_Permutation, !elem_of_remove_dups, elem_of_app, list_elem_of_singleton.
    tauto.
  - intros a b x.
    rewrite merge_sort_Permutation, elem_of_remove_dups, list_elem_of_filter.
    rewrite !merge_sort_Permutation, !elem_of_remove_dups. tauto.
  - intros a b x.
    rewrite merge_sort_Permutation, elem_of_remove_dups, list_elem_of_filter.
    rewrite !merge_sort_Permutation, !elem_of_remove_dups. tauto.
Defined.

(** ** Notions the statements use *)

(** The column of a frame under a name, when there is exactly one. *)
Definition series_of (df : DataFrame) (col : string) : option Series :=
  match getitem df col with
  | Ok (ISeries s) => Some s
  | _ => None
  end.

(** The content of a column differs between the two frames, in the sense of
    the engine: [not df_before[col].equals(df_after[col])]. *)
Definition content_differs (df_before df_after : DataFrame) (col : string) : bool :=
  match series_of df_before col, series_of df_after col with
  | Some b, Some a => negb (Series_equals b a)
  | _, _ => false
  end.

(** The declared datatype of a column differs between the two frames. *)
Definition dtype_differs (df_before df_after : DataFrame) (col : string) : bool :=
  match series_of df_before col, series_of df_after col with
  | Some b, Some a => bool_decide (s_dtype b ≠ s_dtype a)
  | _, _ => false
  end.

(** A common column: the name is among the columns of both frames. *)
Definition is_common (df_before df_after : DataFrame) (col : string) : Prop :=
  col ∈ df_columns df_before ∧ col ∈ df_columns df_after.

(** The name selects one column in each frame. *)
Definition selects (df_before df_after : DataFrame) (col : string) : Prop :=
  is_Some (series_of df_before col) ∧ is_Some (series_of df_after col).

(** What one round of the loop of [compare_df] does when [col] selects the
    columns [b] and [a]. *)
Definition compare_step {PS : PySet} (st : DataFrameChanges * pyset) (col : string)
    (b a : Series) : DataFrameChanges * pyset :=
  let changes :=
    if bool_decide (s_dtype b ≠ s_dtype a)
    then set_schema_change col (dtype_str (s_dtype b)) (dtype_str (s_dtype a)) st.1
    else st.1 in
  if negb (Series_equals b a)
  then (append_modified col changes, set_add col st.2)
  else (changes, st.2).

(** The value of a column at a row label. *)
Definition cell (df : DataFrame) (col : string) (l : Z) : option value :=
  s ← series_of df col; lookup_label l (s_index s) (s_values s).

(** The mask on two well-formed frames: one entry for each label the two
    frames share, [True] where the two cells differ for [!=]. *)
Definition mask_on (b a : Series) (labels : list Z) : Mask :=
  mkMask labels
    ((λ l, py_ne (default VNaN (lookup_label l (s_index b) (s_values b)))
                 (default VNaN (lookup_label l (s_index a) (s_values a)))) <$> labels).

(** ** Notions of the further properties *)

(** The two dtype labels [compare_df] stores for a column whose dtype
    differs. *)
Definition dtype_labels (df_before df_after : DataFrame) (col : string)
    : option (string * string) :=
  match series_of df_before col, series_of df_after col with
  | Some b, Some a => Some (dtype_str (s_dtype b), dtype_str (s_dtype a))
  | _, _ => None
  end.

(** The name is carried by more than one column of the frame. *)
Definition repeated (df : DataFrame) (col : string) : Prop :=
  (1 < length (named col df))%nat.

(** The two cells of a pair of columns differ for [!=] at a label. *)
Definition changed_at (b a : Series) (l : Z) : bool :=
  py_ne (default VNaN (lookup_label l (s_index b) (s_values b)))
        (default VNaN (lookup_label l (s_index a) (s_values a))).

(** The rows of a Series a boolean selector keeps. *)
Definition selected (s : Series) (keep : Z → bool) : Series :=
  mkSeries (s_dtype s)
    (filter (λ l, keep l = true) (s_index s))
    (reindex s (filter (λ l, keep l = true) (s_index s))).

(** The value of a column at a row label, NaN where there is none. *)
Definition value_at (df : DataFrame) (col : string) (l : Z) : value :=
  default VNaN (cell df col l).

(** The row labels the two frames share at which a column differs for
    [!=]. *)
Definition changed_labels (df_before df_after : DataFrame) (col : string) : list Z :=
  filter (λ l, py_ne (value_at df_before col l) (value_at df_after col l) = true)
    (intersection (df_index df_before) (df_index df_after)).

(** The two frames have the same row labels, in whatever order. *)
Definition same_labels (df_before df_after : DataFrame) : Prop :=
  Forall (λ l, l ∈ df_index df_after) (df_index df_before)
  ∧ Forall (λ l, l ∈ df_index df_before) (df_index df_after).

#[global] Instance same_labels_dec df_before df_after :
  Decision (same_labels df_before df_after).
Proof. unfold same_labels. apply _. Defined.

(** The table drawn for a column: the frame [comparison] built from the
    selected rows of the two columns and, when there is one, of the column
    [name]. *)
Definition comparison_table (Before After : Series) (context : option Series) : event :=
  match context with
  | Some ctx =>
      ETable ["Before"; "After"; "name"]
        (comparison_cells (comparison_index Before After) [Before; After; ctx])
  | None =>
      ETable ["Before"; "After"]
        (comparison_cells (comparison_index Before After) [Before; After])
  end.

(** A value differs on a shared row label in some common column while the
    two frames do not have the same row labels. *)
Definition misaligned_change (df_before df_after : DataFrame) : Prop :=
  ¬ same_labels df_before df_after
  ∧ Exists (λ c, c ∈ df_columns df_after ∧ changed_labels df_before df_after c ≠ [])
      (df_columns df_before).

#[global] Instance misaligned_change_dec df_before df_after :
  Decision (misaligned_change df_before df_after).
Proof. unfold misaligned_change. apply _. Defined.

(** The names of the columns of the table drawn for the first frame, and
    the cells of its row for a label. *)
Definition table_headers (df_before : DataFrame) : list string :=
  ["Before"; "After"] ++ (if bool_decide ("name" ∈ df_columns df_before) then ["name"] else []).

Definition table_row (df_before df_after : DataFrame) (col : string) (l : Z) : list value :=
  [value_at df_before col l; value_at df_after col l]
  ++ (if bool_decide ("name" ∈ df_columns df_before) then [value_at df_before "name" l] else []).

(** A line on the number of rows. *)
Definition is_row_line (e : event) : Prop :=
  match e with
  | ERows _ _ _ | ENoRowChanges => True
  | _ => False
  end.

#[global] Instance is_row_line_dec e : Decision (is_row_line e).
Proof. destruct e; simpl; apply _. Defined.

(** The line on the number of rows for two frames. *)
Definition row_line (df_before df_after : DataFrame) : event :=
  if decide (len df_before = len df_after) then ENoRowChanges
  else ERows (len df_before) (len df_after) (len df_after - len df_before).

(** No DataFrame among some objects. *)
Definition no_dataframe (objs : list pyobj) : Prop :=
  Forall (λ o, as_dataframe o = None) objs.

(** A line of the older copy as the newer copy writes it: the line on the
    number of rows with the three characters in the place of the arrow,
    every other line as it is. *)
Definition newer_line (e : event) : event :=
  match e with
  | ERowsArrow before after difference => ERows before after difference
  | _ => e
  end.

(** Two runs, one of each copy, that return or raise the same and print the
    same lines but for the arrow. *)
Definition same_but_arrow {A : Type} (older newer : IO A) : Prop :=
  older.2 = newer.2 ∧ newer_line <$> older.1 = newer.1.

(** A cell that compares as it stands. Before numpy compares an int64
    column with a float64 column it converts the first to float64, which
    holds the integers up to [2 ^ 53] in absolute value as they are and
    rounds beyond; on the numbers in that range [!=] is the comparison of
    integers that [py_ne] makes. *)
Definition exact_number (v : value) : Prop :=
  match v with
  | VNum n => - 2 ^ 53 ≤ n ≤ 2 ^ 53
  | _ => True
  end.

#[global] Instance exact_number_dec v : Decision (exact_number v).
Proof. destruct v; simpl; apply _. Defined.

(** Every number of the frame is in that range. *)
Definition exact_cells (df : DataFrame) : Prop :=
  Forall (λ c, Forall exact_number c.2.2) (df_data df).

#[global] Instance exact_cells_dec df : Decision (exact_cells df).
Proof. unfold exact_cells. apply _. Defined.

(** The column a line [Changes in col:] names, and the list a line
    [Content changes in columns:] shows. *)
Definition changes_in (e : event) : option string :=
  match e with EChangesIn c => Some c | _ => None end.

Definition content_line (e : event) : option (list string) :=
  match e with EContentChanges cols => Some cols | _ => None end.

(** ** The equality of two columns in the words of the specification

    "Two columns are equal iff they have identical row index and, at every
    shared index position, equal values", where "a missing value equals only
    another missing value at the same position". *)
Definition spec_values_equal (x y : value) : Prop :=
  (isna x = true ∧ isna y = true)
  ∨ (isna x = false ∧ isna y = false ∧ py_eq x y = true).

Definition spec_columns_equal (b a : Series) : Prop :=
  s_index b = s_index a
  ∧ ∀ k x y, s_values b !! k = Some x → s_values a !! k = Some y → spec_values_equal x y.

(** ** Frames of the test suite, and a few more *)

Module Fixtures.
(** [test_row_changes] *)
Definition three_rows : DataFrame :=
  mkDataFrame [0; 1; 2]
    [("id", (int64, [VNum 1; VNum 2; VNum 3]));
     ("value", (int64, [VNum 10; VNum 20; VNum 30]))].

Definition two_rows : DataFrame :=
  mkDataFrame [0; 1]
    [("id", (int64, [VNum 1; VNum 2]));
     ("value", (int64, [VNum 10; VNum 20]))].

(** [test_column_changes] *)
Definition old_col : DataFrame :=
  mkDataFrame [0; 1]
    [("id", (int64, [VNum 1; VNum 2]));
     ("old_col", (int64, [VNum 10; VNum 20]))].

Definition new_col : DataFrame :=
  mkDataFrame [0; 1]
    [("id", (int64, [VNum 1; VNum 2]));
     ("new_col", (int64, [VNum 30; VNum 40]))].

(** [test_schema_changes] *)
Definition int_value : DataFrame :=
  mkDataFrame [0; 1]
    [("id", (int64, [VNum 1; VNum 2]));
     ("value", (int64, [VNum 10; VNum 20]))].

Definition str_value : DataFrame :=
  mkDataFrame [0; 1]
    [("id", (int64, [VNum 1; VNum 2]));
     ("value", (object, [VStr "10"; VStr "20"]))].

(** [pd.DataFrame()] *)
Definition empty : DataFrame := mkDataFrame [] [].

(** Five columns, two of which change. *)
Definition people : DataFrame :=
  mkDataFrame [0; 1; 2]
    [("id", (int64, [VNum 1; VNum 2; VNum 3]));
     ("name", (object, [VStr "Alice"; VStr "Bob"; VStr "Charlie"]));
     ("age", (int64, [VNum 25; VNum 30; VNum 35]));
     ("height", (int64, [VNum 170; VNum 180; VNum 190]));
     ("salary", (int64, [VNum 50000; VNum 60000; VNum 70000]))].

Definition people_later : DataFrame :=
  mkDataFrame [0; 1; 2]
    [("id", (int64, [VNum 1; VNum 2; VNum 3]));
     ("name", (object, [VStr "Alice"; VStr "Bob"; VStr "Charlie"]));
     ("age", (int64, [VNum 26; VNum 31; VNum 36]));
     ("height", (int64, [VNum 170; VNum 180; VNum 191]));
     ("salary", (int64, [VNum 50000; VNum 60000; VNum 70000]))].

(** A column of integers turned into floats: [df["n"].astype(float)]. *)
Definition int_column : DataFrame :=
  mkDataFrame [0; 1] [("n", (int64, [VNum 1; VNum 2]))].

Definition float_column : DataFrame :=
  mkDataFrame [0; 1] [("n", (float64, [VNum 1; VNum 2]))].

(** A column of floats with a missing value in its first row. *)
Definition with_nan : DataFrame :=
  mkDataFrame [0; 1] [("score", (float64, [VNaN; VNum 1]))].

Definition with_nan_later : DataFrame :=
  mkDataFrame [0; 1] [("score", (float64, [VNaN; VNum 2]))].

(** A transformation that drops the last row and changes a value of a
    row it keeps, as
    [df = df[df["id"] != 3]; df.loc[1, "value"] = 25; return df]
    does on [three_rows]. *)
Definition two_rows_changed : DataFrame :=
  mkDataFrame [0; 1]
    [("id", (int64, [VNum 1; VNum 2]));
     ("value", (int64, [VNum 10; VNum 25]))].

Definition drop_and_change : pyfunc :=
  λ args kwargs,
    match args with
    | [ODataFrame _] => Ok (ODataFrame two_rows_changed)
    | _ => Raise ValueError
    end.
End Fixtures.

(** ** More functions, frames and reports for the examples *)

Module Samples.
(** A function that takes [people] to [people_later]. *)
Definition birthday : pyfunc :=
  λ args kwargs,
    match args with
    | [ODataFrame _] => Ok (ODataFrame Fixtures.people_later)
    | _ => Raise ValueError
    end.

(** A function that drops the last row of [three_rows], as
    [df[df["id"] != 3]] does. *)
Definition drop_last : pyfunc :=
  λ args kwargs,
    match args with
    | [ODataFrame _] => Ok (ODataFrame Fixtures.two_rows)
    | _ => Raise ValueError
    end.

(** A function that does not return a DataFrame. *)
Definition count_rows : pyfunc :=
  λ args kwargs,
    match args with
    | [ODataFrame df] => Ok (OValue (VNum (len df)))
    | _ => Raise ValueError
    end.

(** A frame with two columns of the same name, as
    [pd.concat([df["id"], df["id"]], axis=1)] builds. *)
Definition twice_id : DataFrame :=
  mkDataFrame [0; 1]
    [("id", (int64, [VNum 1; VNum 2]));
     ("id", (int64, [VNum 1; VNum 2]))].

(** A column of floats with a missing value, and the same rows in another
    order, as [df.loc[[1, 0, 2]]] gives them. *)
Definition scores : DataFrame :=
  mkDataFrame [0; 1; 2] [("score", (float64, [VNaN; VNum 1; VNum 2]))].

Definition scores_reordered : DataFrame :=
  mkDataFrame [1; 0; 2] [("score", (float64, [VNum 1; VNaN; VNum 2]))].

(** The report of a comparison that raises nothing. *)
Definition report_of (x : res DataFrameChanges) : DataFrameChanges :=
  match x with
  | Ok r => r
  | Raise _ => DataFrameChanges_init (RowChanges_init 0 0)
  end.

Definition schema_report : DataFrameChanges :=
  Eval vm_compute in
    report_of (compare_df (PS := slot_set) Fixtures.int_value Fixtures.str_value).

Definition schema_report_back : DataFrameChanges :=
  Eval vm_compute in
    report_of (compare_df (PS := slot_set) Fixtures.str_value Fixtures.int_value).

Definition columns_report : DataFrameChanges :=
  Eval vm_compute in
    report_of (compare_df (PS := slot_set) Fixtures.old_col Fixtures.new_col).

Definition rows_report : DataFrameChanges :=
  Eval vm_compute in
    report_of (compare_df (PS := slot_set) Fixtures.three_rows Fixtures.two_rows).
End Samples.

(** * Properties *)

(** ** [unique] *)

Section Unique.
Context {A : Type} `{EqDecision A}.
Implicit Types (l : list A) (x : A).

Lemma elem_of_unique x l : x ∈ unique l ↔ x ∈ l.
Proof.
  induction l as [|y l IH]; simpl; [done|].
  rewrite !elem_of_cons, list_elem_of_filter, IH.
  destruct (decide (x = y)); tauto.
Qed.

Lemma NoDup_unique l : NoDup (unique l).
Proof.
  induction l as [|y l IH]; simpl; [constructor|].
  constructor.
  - rewrite list_elem_of_filter. intros [Hne _]. by apply Hne.
  - by apply NoDup_filter.
Qed.

Lemma filter_all (P : A → Prop) `{!∀ x, Decision (P x)} l :
  Forall P l → filter P l = l.
Proof.
  induction 1 as [|y l Hy _ IH]; [done|].
  rewrite filter_cons_True by done. by rewrite IH.
Qed.

Lemma filter_none (P : A → Prop) `{!∀ x, Decision (P x)} l :
  Forall (λ x, ¬ P x) l → filter P l = [].
Proof.
  induction 1 as [|y l Hy _ IH]; [done|].
  by rewrite filter_cons_False.
Qed.

Lemma unique_NoDup l : NoDup l → unique l = l.
Proof.
  induction 1 as [|y l Hy _ IH]; simpl; [done|].
  rewrite IH. f_equal. apply filter_all, Forall_forall.
  intros z Hz ->. by apply Hy.
Qed.
End Unique.

(** ** Reading a column *)

Lemma named_NoDup (df : DataFrame) col c :
  NoDup (df_columns df) → (col, c) ∈ df_data df → named col df = [(col, c)].
Proof.
  unfold df_columns, named. induction (df_data df) as [|[k v] l IH]; simpl.
  - by intros _ ?%elem_of_nil.
  - rewrite NoDup_cons. intros [Hk Hl] [Heq|Hin]%elem_of_cons.
    + injection Heq as <- <-. rewrite filter_cons_True by done. f_equal.
      apply filter_none, Forall_forall. intros [k' v'] Hin' Hk'.
      simpl in Hk'. subst k'. apply Hk, list_elem_of_fmap. by exists (col, v').
    + rewrite filter_cons_False; [by apply IH|].
      simpl. intros ->. apply Hk, list_elem_of_fmap. by exists (col, c).
Qed.

Lemma series_of_Some (df : DataFrame) col s :
  series_of df col = Some s →
  named col df = [(col, (s_dtype s, s_values s))] ∧ s_index s = df_index df.
Proof.
  unfold series_of, getitem.
  destruct (named col df) as [|[k [d vs]] [|? ?]] eqn:Hn; try done.
  intros [= <-]. simpl. split; [|done].
  assert ((k, (d, vs)) ∈ named col df) as Hin by (rewrite Hn; left).
  apply list_elem_of_filter in Hin as [Hk _]. simpl in Hk. by subst k.
Qed.

Lemma series_of_getitem (df : DataFrame) col s :
  series_of df col = Some s ↔ getitem df col = Ok (ISeries s).
Proof.
  unfold series_of. destruct (getitem df col) as [[?|?]|?]; split; congruence.
Qed.

Lemma series_of_elem_of (df : DataFrame) col s :
  series_of df col = Some s →
  (col, (s_dtype s, s_values s)) ∈ df_data df ∧ col ∈ df_columns df.
Proof.
  intros [Hn _]%series_of_Some.
  assert ((col, (s_dtype s, s_values s)) ∈ df_data df) as Hin.
  { eapply (list_elem_of_filter (λ kv, kv.1 = col)). unfold named in Hn. rewrite Hn. left. }
  split; [done|]. apply list_elem_of_fmap.
  by exists (col, (s_dtype s, s_values s)).
Qed.

Lemma series_of_wf (df : DataFrame) col :
  NoDup (df_columns df) → col ∈ df_columns df →
  ∃ s, series_of df col = Some s ∧ s_index s = df_index df
       ∧ (col, (s_dtype s, s_values s)) ∈ df_data df.
Proof.
  intros Hnd ([k [d vs]] & -> & Hin)%list_elem_of_fmap. simpl.
  exists (mkSeries d (df_index df) vs). simpl. split; [|by split].
  unfold series_of, getitem. by rewrite (named_NoDup df k (d, vs)).
Qed.

Lemma series_of_column (df : DataFrame) col s :
  series_of df col = Some s → column df col = Ok s.
Proof.
  intros Hs. destruct (series_of_Some _ _ _ Hs) as [Hn Hi].
  unfold column. rewrite Hn. destruct s; simpl in *. by subst.
Qed.

Lemma series_of_length (df : DataFrame) col s :
  wf_df df → series_of df col = Some s → length (s_values s) = length (s_index s).
Proof.
  intros Hwf Hs. destruct (series_of_elem_of _ _ _ Hs) as [Hin _].
  destruct (series_of_Some _ _ _ Hs) as [_ ->].
  pose proof (wf_cells _ Hwf) as Hall. rewrite Forall_forall in Hall.
  by apply Hall in Hin.
Qed.

(** ** The loop of [compare_df] *)

Section EngineFacts.
Context {PS : PySet}.
Implicit Types (df_before df_after : DataFrame) (st : DataFrameChanges * pyset).

Lemma compare_col_Ok df_before df_after st col b a :
  series_of df_before col = Some b → series_of df_after col = Some a →
  compare_col df_before df_after st col = Ok (compare_step st col b a).
Proof.
  intros Hb%series_of_getitem Ha%series_of_getitem.
  unfold compare_col, compare_step. rewrite Hb, Ha. simpl.
  by destruct (negb (Series_equals b a)).
Qed.

Lemma compare_col_inv df_before df_after st col st' :
  compare_col df_before df_after st col = Ok st' →
  ∃ b a, series_of df_before col = Some b ∧ series_of df_after col = Some a
         ∧ st' = compare_step st col b a.
Proof.
  intros Hc.
  destruct (series_of df_before col) as [b|] eqn:Hb.
  - destruct (series_of df_after col) as [a|] eqn:Ha.
    + exists b, a. rewrite (compare_col_Ok _ _ st _ _ _ Hb Ha) in Hc.
      by injection Hc as <-.
    + exfalso. apply series_of_getitem in Hb.
      unfold compare_col, series_of in *. rewrite Hb in Hc. simpl in Hc.
      by destruct (getitem df_after col) as [[?|?]|?].
  - exfalso. unfold compare_col, series_of in *.
    by destruct (getitem df_before col) as [[?|?]|?].
Qed.

Lemma compare_step_facts df_before df_after st col b a :
  series_of df_before col = Some b → series_of df_after col = Some a →
  let st' := compare_step st col b a in
  rows st'.1 = rows st.1
  ∧ added (columns st'.1) = added (columns st.1)
  ∧ removed (columns st'.1) = removed (columns st.1)
  ∧ content_changes st'.1 = content_changes st.1
  ∧ modified (columns st'.1)
    = modified (columns st.1) ++ filter (λ c, content_differs df_before df_after c) [col]
  ∧ (∀ x, x ∈ set_iter st'.2 ↔
          x ∈ set_iter st.2 ∨ (x = col ∧ content_differs df_before df_after x))
  ∧ (∀ x, is_Some (schema_changes st'.1 !! x) ↔
          is_Some (schema_changes st.1 !! x) ∨ (x = col ∧ dtype_differs df_before df_after x)).
Proof.
  intros Hb Ha. unfold compare_step.
  assert (content_differs df_before df_after col = negb (Series_equals b a)) as Hc
    by (unfold content_differs; by rewrite Hb, Ha).
  assert (dtype_differs df_before df_after col = bool_decide (s_dtype b ≠ s_dtype a)) as Hd
    by (unfold dtype_differs; by rewrite Hb, Ha).
  rewrite <-Hc, <-Hd. simpl.
  set (changes := if dtype_differs df_before df_after col
                  then set_schema_change col (dtype_str (s_dtype b)) (dtype_str (s_dtype a)) st.1
                  else st.1).
  assert (rows changes = rows st.1 ∧ columns changes = columns st.1
          ∧ content_changes changes = content_changes st.1) as (Hr & Hcols & Hcc).
  { subst changes. by destruct (dtype_differs df_before df_after col). }
  assert (∀ x, is_Some (schema_changes changes !! x) ↔
    is_Some (schema_changes st.1 !! x) ∨ (x = col ∧ dtype_differs df_before df_after x))
    as Hschema.
  { intros x. subst changes.
    destruct (dtype_differs df_before df_after col) eqn:Hdd; simpl.
    - rewrite lookup_insert_is_Some. destruct (decide (col = x)) as [->|Hne].
      + rewrite Hdd. split; [by right|by left].
      + split; [intros [?|[_ ?]]; [done|by left]|].
        intros [?|[-> _]]; [by right|done].
    - split; [by left|]. intros [?|[-> Hx]]; [done|]. by rewrite Hdd in Hx. }
  destruct (content_differs df_before df_after col) eqn:Hcd; simpl; rewrite Hcols.
  - rewrite filter_cons_True by (by rewrite Hcd).
    split_and!; try done. intros x. rewrite elem_of_set_add. split.
    + intros [->|?]; [right; by rewrite Hcd|by left].
    + intros [?|[-> _]]; [by right|by left].
  - rewrite filter_cons_False by (rewrite Hcd; simpl; tauto). rewrite app_nil_r.
    split_and!; try done. intros x. split; [by left|].
    intros [?|[-> Hx]]; [done|by rewrite Hcd in Hx].
Qed.

Lemma loop_facts df_before df_after l : ∀ st st',
  for_each (compare_col df_before df_after) st l = Ok st' →
  rows st'.1 = rows st.1
  ∧ added (columns st'.1) = added (columns st.1)
  ∧ removed (columns st'.1) = removed (columns st.1)
  ∧ content_changes st'.1 = content_changes st.1
  ∧ modified (columns st'.1)
    = modified (columns st.1) ++ filter (λ c, content_differs df_before df_after c) l
  ∧ (∀ x, x ∈ set_iter st'.2 ↔
          x ∈ set_iter st.2 ∨ (x ∈ l ∧ content_differs df_before df_after x))
  ∧ (∀ x, is_Some (schema_changes st'.1 !! x) ↔
          is_Some (schema_changes st.1 !! x) ∨ (x ∈ l ∧ dtype_differs df_before df_after x))
  ∧ Forall (selects df_before df_after) l.
Proof.
  induction l as [|col l IH]; intros st st' Hloop; simpl in Hloop.
  - injection Hloop as <-. rewrite app_nil_r. split_and!; try done.
    + intros x. rewrite elem_of_nil. tauto.
    + intros x. rewrite elem_of_nil. tauto.
  - destruct (compare_col df_before df_after st col) as [st1|] eqn:Hcol; [|done].
    apply compare_col_inv in Hcol as (b & a & Hb & Ha & ->).
    destruct (compare_step_facts _ _ st _ _ _ Hb Ha) as (R1 & A1 & D1 & C1 & M1 & S1 & K1).
    destruct (IH _ _ Hloop) as (R2 & A2 & D2 & C2 & M2 & S2 & K2 & F2).
    split_and!; try congruence.
    + by rewrite M2, M1, <-app_assoc, <-filter_app.
    + intros x. rewrite S2, S1, elem_of_cons. tauto.
    + intros x. rewrite K2, K1, elem_of_cons. tauto.
    + constructor; [|done]. by split; eexists.
Qed.

Lemma loop_total df_before df_after l : ∀ st,
  Forall (selects df_before df_after) l →
  ∃ st', for_each (compare_col df_before df_after) st l = Ok st'.
Proof.
  induction l as [|col l IH]; intros st Hall; simpl; [by eexists|].
  apply Forall_cons in Hall as [[[b Hb] [a Ha]] Hall].
  rewrite (compare_col_Ok _ _ st _ _ _ Hb Ha). by apply IH.
Qed.
End EngineFacts.

(** ** What [compare_df] returns *)

Section CompareFacts.
Context {PS : PySet}.
Implicit Types (df_before df_after : DataFrame) (r : DataFrameChanges).

Lemma elem_of_common_cols df_before df_after x :
  x ∈ set_iter (common_cols df_before df_after) ↔ is_common df_before df_after x.
Proof. unfold common_cols, is_common. by rewrite elem_of_set_and, !elem_of_set_from. Qed.

Lemma compare_df_inv df_before df_after r :
  compare_df df_before df_after = Ok r →
  rows r = RowChanges_init (len df_before) (len df_after)
  ∧ added (columns r)
    = set_iter (set_sub (set_from (df_columns df_after)) (set_from (df_columns df_before)))
  ∧ removed (columns r)
    = set_iter (set_sub (set_from (df_columns df_before)) (set_from (df_columns df_after)))
  ∧ modified (columns r)
    = filter (λ c, content_differs df_before df_after c)
        (set_iter (common_cols df_before df_after))
  ∧ (∀ x, x ∈ content_changes r ↔ x ∈ modified (columns r))
  ∧ NoDup (content_changes r)
  ∧ (∀ x, is_Some (schema_changes r !! x) ↔
          is_common df_before df_after x ∧ dtype_differs df_before df_after x)
  ∧ Forall (selects df_before df_after) (set_iter (common_cols df_before df_after)).
Proof.
  unfold compare_df. intros Hr.
  match type of Hr with context [for_each ?f ?s ?l] =>
    destruct (for_each f s l) as [st|] eqn:Hloop; [|done] end.
  injection Hr as <-.
  apply loop_facts in Hloop as (R & A & D & _ & M & S & K & F). simpl in *.
  split_and!; try done.
  - intros x. rewrite M, S, list_elem_of_filter.
    pose proof (elem_of_set_empty x). tauto.
  - apply set_iter_NoDup.
  - intros x. rewrite K, lookup_empty, <-elem_of_common_cols.
    split; [intros [[? [=]]|?]; done|by right].
Qed.

Lemma compare_df_total df_before df_after :
  NoDup (df_columns df_before) → NoDup (df_columns df_after) →
  ∃ r, compare_df df_before df_after = Ok r.
Proof.
  intros Hb Ha. unfold compare_df.
  match goal with |- context [for_each ?f ?s ?l] =>
    destruct (loop_total df_before df_after l s) as [st ->] end; [|by eexists].
  apply Forall_forall. intros x [Hxb Hxa]%elem_of_common_cols.
  destruct (series_of_wf _ _ Hb Hxb) as (? & ? & _).
  destruct (series_of_wf _ _ Ha Hxa) as (? & ? & _).
  by split; eexists.
Qed.

Lemma modified_NoDup df_before df_after r :
  compare_df df_before df_after = Ok r → NoDup (modified (columns r)).
Proof.
  intros (_ & _ & _ & -> & _)%compare_df_inv.
  apply NoDup_filter, set_iter_NoDup.
Qed.
End CompareFacts.

(** ** [equals] *)

Lemma value_equiv_refl x : value_equiv x x = true.
Proof. unfold value_equiv. destruct x; simpl; [by rewrite bool_decide_eq_true_2..|done]. Qed.

Lemma array_equivalent_refl l : array_equivalent l l = true.
Proof. induction l as [|x l IH]; simpl; [done|]. by rewrite value_equiv_refl, IH. Qed.

Lemma Series_equals_refl s : Series_equals s s = true.
Proof.
  unfold Series_equals. by rewrite !bool_decide_eq_true_2, array_equivalent_refl.
Qed.

Lemma content_differs_self df col : content_differs df df col = false.
Proof.
  unfold content_differs. destruct (series_of df col); [|done].
  by rewrite Series_equals_refl.
Qed.

Lemma dtype_differs_self df col : dtype_differs df df col = false.
Proof.
  unfold dtype_differs. destruct (series_of df col); [|done].
  by apply bool_decide_eq_false_2; intros ?.
Qed.

Lemma value_equiv_spec x y : value_equiv x y = true ↔ spec_values_equal x y.
Proof.
  unfold value_equiv, spec_values_equal.
  destruct x, y; simpl; rewrite ?orb_false_r; split;
    try (intros [(?&?)|(?&?&?)]); try done; try (by intros ?; right); by left.
Qed.

Lemma array_equivalent_spec l r :
  array_equivalent l r = true ↔
  length l = length r
  ∧ ∀ k x y, l !! k = Some x → r !! k = Some y → value_equiv x y = true.
Proof.
  revert r. induction l as [|x l IH]; intros [|y r]; simpl.
  - split; [|done]. intros _. split; [done|]. intros k x y Hx. by rewrite lookup_nil in Hx.
  - split; [done|]. by intros [? _].
  - split; [done|]. by intros [? _].
  - rewrite andb_true_iff, IH. split.
    + intros [Hxy [Hlen Hrest]]. split; [by rewrite Hlen|].
      intros [|k] x' y'; simpl; [by intros [= <-] [= <-]|]. apply Hrest.
    + intros [Hlen Hall]. split_and!.
      * by apply (Hall 0%nat).
      * by injection Hlen.
      * intros k x' y'. apply (Hall (S k)).
Qed.

Lemma Series_equals_spec b a :
  length (s_values b) = length (s_index b) →
  length (s_values a) = length (s_index a) →
  Series_equals b a = true ↔ s_dtype b = s_dtype a ∧ spec_columns_equal b a.
Proof.
  intros Hb Ha. unfold Series_equals, spec_columns_equal.
  rewrite !andb_true_iff, !bool_decide_eq_true, array_equivalent_spec.
  split.
  - intros [[Hi Hd] [_ Hall]]. split_and!; [done..|].
    intros k x y Hx Hy. by apply value_equiv_spec, (Hall k).
  - intros [Hd [Hi Hall]]. split_and!; [done..| |].
    + by rewrite Hb, Ha, Hi.
    + intros k x y Hx Hy. by apply value_equiv_spec, (Hall k).
Qed.

(** ** The engine: claims *)

Section EngineClaims.
Context {PS : PySet}.
Implicit Types (df_before df_after : DataFrame) (r : DataFrameChanges).

(** C5. The row counts of the report are the lengths of the two frames,
    and [difference] is the one [RowChanges] derives from them: the
    [after] count minus the [before] count, whatever its sign. *)
Theorem rows_difference_derived df_before df_after r :
  compare_df df_before df_after = Ok r →
  rows r = RowChanges_init (len df_before) (len df_after)
  ∧ before (rows r) = len df_before
  ∧ after (rows r) = len df_after
  ∧ difference (rows r) = after (rows r) - before (rows r)
  ∧ difference (rows r) = len df_after - len df_before.
Proof.
  intros (-> & _)%compare_df_inv. by unfold RowChanges_init.
Qed.

(** C7. [compare_df] raises nothing on well-formed frames, whatever their
    rows and columns; when neither frame has a column the report holds
    the two row counts and nothing else, and for two empty frames it is
    the empty report. *)
Theorem compare_df_never_raises df_before df_after :
  wf_df df_before → wf_df df_after →
  (∃ r, compare_df df_before df_after = Ok r)
  ∧ (df_data df_before = [] → df_data df_after = [] →
     compare_df df_before df_after
     = Ok (DataFrameChanges_init (RowChanges_init (len df_before) (len df_after))))
  ∧ compare_df Fixtures.empty Fixtures.empty
    = Ok (DataFrameChanges_init (RowChanges_init 0 0)).
Proof.
  assert (∀ b a, df_data b = [] → df_data a = [] →
    compare_df b a = Ok (DataFrameChanges_init (RowChanges_init (len b) (len a))))
    as Hempty.
  { intros b a Hb Ha.
    destruct (compare_df_total b a) as [r Hr].
    { unfold df_columns. rewrite Hb. constructor. }
    { unfold df_columns. rewrite Ha. constructor. }
    rewrite Hr. f_equal.
    destruct (compare_df_inv _ _ _ Hr) as (R & A & D & M & C & _ & K & _).
    assert (∀ x, ¬ is_common b a x) as Hnone.
    { intros x [Hx _]. unfold df_columns in Hx. rewrite Hb in Hx. by apply elem_of_nil in Hx. }
    assert (modified (columns r) = []) as M'.
    { rewrite M. apply elem_of_nil_inv. intros x [_ Hx%elem_of_common_cols]%list_elem_of_filter.
      by apply (Hnone x). }
    assert (added (columns r) = []) as A'.
    { rewrite A. apply elem_of_nil_inv. intros x [Hx _]%elem_of_set_sub.
      rewrite elem_of_set_from in Hx. unfold df_columns in Hx. rewrite Ha in Hx.
      by apply elem_of_nil in Hx. }
    assert (removed (columns r) = []) as D'.
    { rewrite D. apply elem_of_nil_inv. intros x [Hx _]%elem_of_set_sub.
      rewrite elem_of_set_from in Hx. unfold df_columns in Hx. rewrite Hb in Hx.
      by apply elem_of_nil in Hx. }
    assert (content_changes r = []) as C'.
    { apply elem_of_nil_inv. intros x Hx%C. rewrite M' in Hx. by apply elem_of_nil in Hx. }
    assert (schema_changes r = ∅) as K'.
    { apply map_empty. intros x. apply eq_None_not_Some. intros [Hx _]%K. by apply (Hnone x). }
    clear -R A' D' M' C' K'. destruct r as [rw [ad rm md] sc cc].
    simpl in *. subst. reflexivity. }
  intros Hb Ha. split_and!.
  - apply compare_df_total; by apply wf_columns.
  - apply Hempty.
  - by apply (Hempty Fixtures.empty Fixtures.empty).
Qed.

(** C3. A well-formed frame compared with itself: no row difference, no
    column added, removed or modified, no schema change, no content
    change. *)
Theorem compare_df_self df :
  wf_df df →
  ∃ r, compare_df df df = Ok r
       ∧ difference (rows r) = 0
       ∧ added (columns r) = []
       ∧ removed (columns r) = []
       ∧ modified (columns r) = []
       ∧ schema_changes r = ∅
       ∧ content_changes r = [].
Proof.
  intros Hwf.
  destruct (compare_df_total df df) as [r Hr]; [by apply wf_columns..|].
  exists r. split; [done|].
  destruct (compare_df_inv _ _ _ Hr) as (R & A & D & M & C & _ & K & _).
  assert (modified (columns r) = []) as M'.
  { rewrite M. apply elem_of_nil_inv. intros x [Hx _]%list_elem_of_filter.
    by rewrite content_differs_self in Hx. }
  split_and!.
  - rewrite R. simpl. lia.
  - rewrite A. apply elem_of_nil_inv. intros x [? ?]%elem_of_set_sub. done.
  - rewrite D. apply elem_of_nil_inv. intros x [? ?]%elem_of_set_sub. done.
  - done.
  - apply map_empty. intros x. apply eq_None_not_Some. intros [_ Hx]%K.
    by rewrite dtype_differs_self in Hx.
  - apply elem_of_nil_inv. intros x Hx%C. rewrite M' in Hx. by apply elem_of_nil in Hx.
Qed.

(** C4. The names added from [A] to [B] are the names removed from [B]
    to [A]. *)
Theorem added_removed_swap A B r1 r2 :
  compare_df A B = Ok r1 → compare_df B A = Ok r2 →
  ∀ x, x ∈ added (columns r1) ↔ x ∈ removed (columns r2).
Proof.
  intros (_ & -> & _)%compare_df_inv (_ & _ & -> & _)%compare_df_inv x. done.
Qed.

(** C10. In a report, the added and the removed names have nothing in
    common with each other or with the common columns; the keys of
    [schema_changes], the members of [content_changes] and the entries of
    [columns.modified] are common columns; no name is twice in
    [columns.modified]. *)
Theorem report_invariant df_before df_after r :
  compare_df df_before df_after = Ok r →
  (∀ x, x ∈ added (columns r) → x ∉ removed (columns r))
  ∧ (∀ x, x ∈ added (columns r) → ¬ is_common df_before df_after x)
  ∧ (∀ x, x ∈ removed (columns r) → ¬ is_common df_before df_after x)
  ∧ (∀ x, is_Some (schema_changes r !! x) → is_common df_before df_after x)
  ∧ (∀ x, x ∈ content_changes r → is_common df_before df_after x)
  ∧ (∀ x, x ∈ modified (columns r) → is_common df_before df_after x)
  ∧ NoDup (modified (columns r)).
Proof.
  intros Hr. pose proof (modified_NoDup _ _ _ Hr) as Hnd.
  destruct (compare_df_inv _ _ _ Hr) as (_ & A & D & M & C & _ & K & _).
  rewrite A, D. unfold is_common. split_and!; try done.
  - intros x [Ha Hb]%elem_of_set_sub [Hb' _]%elem_of_set_sub. done.
  - intros x [_ Hb]%elem_of_set_sub [Hb' _]. by rewrite elem_of_set_from in Hb.
  - intros x [_ Ha]%elem_of_set_sub [_ Ha']. by rewrite elem_of_set_from in Ha.
  - intros x [Hx _]%K. done.
  - intros x Hx%C. rewrite M in Hx.
    by apply list_elem_of_filter in Hx as [_ Hx%elem_of_common_cols].
  - intros x Hx. rewrite M in Hx.
    by apply list_elem_of_filter in Hx as [_ Hx%elem_of_common_cols].
Qed.

(** C1, amended. [content_changes] holds the names of [columns.modified],
    each once: it is a rearrangement of [columns.modified], in the order
    in which the set of these names is iterated. *)
Theorem content_changes_rearranges_modified df_before df_after r :
  compare_df df_before df_after = Ok r →
  content_changes r ≡ₚ modified (columns r).
Proof.
  intros Hr. pose proof (modified_NoDup _ _ _ Hr) as Hnd.
  destruct (compare_df_inv _ _ _ Hr) as (_ & _ & _ & _ & C & Hnd' & _).
  by apply NoDup_Permutation.
Qed.
(** C2, amended. A common column is added to [content_changes] and
    appended to [columns.modified] if and only if the two columns are not
    equal for [Series.equals]: they are equal iff they have the same
    declared datatype, an identical row index and equal values at every
    position, a missing value being equal only to another missing value
    at the same position. *)
Theorem modified_iff_not_equals df_before df_after r c :
  wf_df df_before → wf_df df_after →
  compare_df df_before df_after = Ok r →
  is_common df_before df_after c →
  ∃ b a, series_of df_before c = Some b ∧ series_of df_after c = Some a
    ∧ (c ∈ content_changes r ↔ c ∈ modified (columns r))
    ∧ (c ∈ modified (columns r) ↔ ¬ (s_dtype b = s_dtype a ∧ spec_columns_equal b a)).
Proof.
  intros Hwb Hwa Hr [Hcb Hca].
  destruct (series_of_wf _ _ (wf_columns _ Hwb) Hcb) as (b & Hb & _).
  destruct (series_of_wf _ _ (wf_columns _ Hwa) Hca) as (a & Ha & _).
  exists b, a. split; [done|]. split; [done|].
  destruct (compare_df_inv _ _ _ Hr) as (_ & _ & _ & M & C & _).
  split; [apply C|].
  rewrite M, list_elem_of_filter, elem_of_common_cols.
  unfold content_differs. rewrite Hb, Ha.
  rewrite <-(Series_equals_spec b a)
    by (eapply series_of_length; [|done]; done).
  destruct (Series_equals b a); simpl; split.
  - by intros [[] _].
  - by intros [].
  - by intros _ ?.
  - intros _. by split.
Qed.
End EngineClaims.

Lemma rows_difference_derived_witness :
  ∃ r, compare_df (PS := slot_set) Fixtures.three_rows Fixtures.two_rows = Ok r
       ∧ difference (rows r) = -1.
Proof.
  eexists. split; [reflexivity|].
  destruct (rows_difference_derived (PS := slot_set)
              Fixtures.three_rows Fixtures.two_rows _ eq_refl) as (_ & _ & _ & _ & ->).
  reflexivity.
Defined.

(** The frames of [Fixtures] are well formed. *)
Ltac wf_by_computation := refine (bool_decide_unpack _ _); vm_compute; exact I.

Lemma wf_three_rows : wf_df Fixtures.three_rows.
Proof. wf_by_computation. Qed.
Lemma wf_two_rows : wf_df Fixtures.two_rows.
Proof. wf_by_computation. Qed.
Lemma wf_old_col : wf_df Fixtures.old_col.
Proof. wf_by_computation. Qed.
Lemma wf_new_col : wf_df Fixtures.new_col.
Proof. wf_by_computation. Qed.
Lemma wf_int_value : wf_df Fixtures.int_value.
Proof. wf_by_computation. Qed.
Lemma wf_str_value : wf_df Fixtures.str_value.
Proof. wf_by_computation. Qed.
Lemma wf_empty : wf_df Fixtures.empty.
Proof. wf_by_computation. Qed.
Lemma wf_people : wf_df Fixtures.people.
Proof. wf_by_computation. Qed.
Lemma wf_people_later : wf_df Fixtures.people_later.
Proof. wf_by_computation. Qed.

Lemma compare_df_never_raises_witness :
  ∃ r, compare_df (PS := slot_set) Fixtures.old_col Fixtures.new_col = Ok r.
Proof.
  exact (proj1 (compare_df_never_raises (PS := slot_set)
                  Fixtures.old_col Fixtures.new_col wf_old_col wf_new_col)).
Defined.

Lemma compare_df_self_witness :
  ∃ r, compare_df (PS := slot_set) Fixtures.people Fixtures.people = Ok r
       ∧ difference (rows r) = 0
       ∧ added (columns r) = []
       ∧ removed (columns r) = []
       ∧ modified (columns r) = []
       ∧ schema_changes r = ∅
       ∧ content_changes r = [].
Proof. exact (compare_df_self (PS := slot_set) Fixtures.people wf_people). Defined.

Lemma added_removed_swap_witness :
  "new_col" ∈ removed (columns
    {| rows := RowChanges_init 2 2;
       columns := {| added := ["old_col"]; removed := ["new_col"]; modified := [] |};
       schema_changes := ∅;
       content_changes := [] |}).
Proof.
  apply (added_removed_swap (PS := slot_set) Fixtures.old_col Fixtures.new_col
           {| rows := RowChanges_init 2 2;
              columns := {| added := ["new_col"]; removed := ["old_col"]; modified := [] |};
              schema_changes := ∅;
              content_changes := [] |} _ eq_refl eq_refl).
  simpl. left.
Defined.

Lemma report_invariant_witness :
  NoDup (modified (columns
    {| rows := RowChanges_init 3 3;
       columns := {| added := []; removed := []; modified := ["age"; "height"] |};
       schema_changes := ∅;
       content_changes := ["height"; "age"] |})).
Proof.
  exact (proj2 (proj2 (proj2 (proj2 (proj2 (proj2
    (report_invariant (PS := slot_set) Fixtures.people Fixtures.people_later _ eq_refl))))))).
Defined.

Lemma content_changes_rearranges_modified_witness :
  ["height"; "age"] ≡ₚ ["age"; "height"].
Proof.
  exact (content_changes_rearranges_modified (PS := slot_set)
           Fixtures.people Fixtures.people_later
           {| rows := RowChanges_init 3 3;
              columns := {| added := []; removed := []; modified := ["age"; "height"] |};
              schema_changes := ∅;
              content_changes := ["height"; "age"] |} eq_refl).
Defined.

(** C1, as stated, fails: with five common columns, of which [age] and
    [height] change, the loop meets [age] before [height] and records them
    so in [columns.modified]; the set of the two names is iterated the other
    way round. *)
Lemma content_changes_order_counterexample :
  wf_df Fixtures.people ∧ wf_df Fixtures.people_later
  ∧ ∃ r, compare_df (PS := slot_set) Fixtures.people Fixtures.people_later = Ok r
         ∧ modified (columns r) = ["age"; "height"]
         ∧ content_changes r = ["height"; "age"]
         ∧ content_changes r ≠ modified (columns r).
Proof.
  split; [exact wf_people|]. split; [exact wf_people_later|].
  eexists. split; [vm_compute; reflexivity|]. simpl. by split_and!.
Qed.

Lemma modified_iff_not_equals_witness :
  ∃ b a, series_of Fixtures.int_value "value" = Some b
    ∧ series_of Fixtures.str_value "value" = Some a
    ∧ ("value" ∈ ["value"] ↔ "value" ∈ ["value"])
    ∧ ("value" ∈ ["value"] ↔ ¬ (s_dtype b = s_dtype a ∧ spec_columns_equal b a)).
Proof.
  refine (modified_iff_not_equals (PS := slot_set) Fixtures.int_value Fixtures.str_value
            {| rows := RowChanges_init 2 2;
               columns := {| added := []; removed := []; modified := ["value"] |};
               schema_changes := {[ "value" := ("int64", "object") ]};
               content_changes := ["value"] |}
            "value" wf_int_value wf_str_value _ _).
  - vm_compute. reflexivity.
  - unfold is_common. split; refine (bool_decide_unpack _ _); vm_compute; exact I.
Defined.

(** C2, as stated, fails: a column of integers turned into floats keeps its
    row index and its values, [1 == 1.0] and [2 == 2.0], so the two columns
    are equal in the words of the claim; [Series.equals] is [False] on two
    dtypes, and the column is recorded as modified. *)
Lemma modified_iff_not_equals_counterexample :
  wf_df Fixtures.int_column ∧ wf_df Fixtures.float_column
  ∧ ∃ r b a,
      compare_df (PS := slot_set) Fixtures.int_column Fixtures.float_column = Ok r
      ∧ series_of Fixtures.int_column "n" = Some b
      ∧ series_of Fixtures.float_column "n" = Some a
      ∧ spec_columns_equal b a
      ∧ "n" ∈ content_changes r
      ∧ "n" ∈ modified (columns r)
      ∧ ¬ (("n" ∈ content_changes r ∧ "n" ∈ modified (columns r))
           ↔ ¬ spec_columns_equal b a).
Proof.
  assert (spec_columns_equal (mkSeries int64 [0; 1] [VNum 1; VNum 2])
            (mkSeries float64 [0; 1] [VNum 1; VNum 2])) as Heq.
  { split; [done|]. simpl. intros [|[|k]] x y; simpl; try done.
    - intros [= <-] [= <-]. by right.
    - intros [= <-] [= <-]. by right. }
  split; [wf_by_computation|]. split; [wf_by_computation|].
  eexists _, _, _. split; [vm_compute; reflexivity|].
  split; [vm_compute; reflexivity|]. split; [vm_compute; reflexivity|].
  split; [exact Heq|]. simpl.
  assert ("n" ∈ ["n"]) as Hin by left.
  split_and!; try done. intros Hiff. apply Hiff; [by split|done].
Qed.

(** ** The pandas operations of the reporter on well-formed frames *)

Lemma intersection_wf (a b : list Z) :
  NoDup a → intersection a b = filter (λ l, l ∈ b) a.
Proof. intros Ha. unfold intersection. by rewrite unique_NoDup. Qed.

Lemma elem_of_intersection (a b : list Z) l :
  l ∈ intersection a b ↔ l ∈ a ∧ l ∈ b.
Proof. unfold intersection. rewrite list_elem_of_filter, elem_of_unique. tauto. Qed.

Lemma lookup_label_is_Some {V : Type} l idx (vals : list V) :
  length vals = length idx → l ∈ idx → is_Some (lookup_label l idx vals).
Proof.
  revert vals. induction idx as [|i idx IH]; intros [|v vals] Hlen Hl; simpl in *;
    try done.
  - by apply elem_of_nil in Hl.
  - destruct (decide (i = l)) as [->|Hne]; [by eexists|].
    apply IH; [by injection Hlen|].
    apply elem_of_cons in Hl as [->|?]; done.
Qed.

Lemma rows_at_lookup d idx vals l v :
  NoDup idx → lookup_label l idx vals = Some v →
  rows_at (mkSeries d idx vals) l = [(l, v)].
Proof.
  unfold rows_at. simpl. revert vals.
  induction idx as [|i idx IH]; intros [|w vals] Hnd Hv; simpl in *; try done.
  apply NoDup_cons in Hnd as [Hi Hnd].
  destruct (decide (i = l)) as [->|Hne].
  - injection Hv as ->. rewrite filter_cons_True by done. f_equal.
    apply filter_none, Forall_forall. intros [l' v'] Hin Heq. simpl in Heq. subst l'.
    apply Hi. apply (elem_of_zip_l _ _ _ _ Hin).
  - rewrite filter_cons_False by done. by apply IH.
Qed.

Lemma take_labels_wf s labels :
  NoDup (s_index s) → length (s_values s) = length (s_index s) →
  Forall (λ l, l ∈ s_index s) labels →
  take_labels s labels = Ok (mkSeries (s_dtype s) labels (reindex s labels)).
Proof.
  intros Hnd Hlen Hall. unfold take_labels. rewrite decide_True by done.
  f_equal.
  assert (labels ≫= rows_at s
          = (λ l, (l, default VNaN (lookup_label l (s_index s) (s_values s)))) <$> labels)
    as ->.
  { induction Hall as [|l labels Hl _ IH]; [done|].
    rewrite bind_cons, fmap_cons, IH. simpl.
    destruct (lookup_label_is_Some l (s_index s) (s_values s) Hlen Hl) as [v Hv].
    rewrite Hv. simpl. destruct s as [d idx vals]. simpl in *.
    by rewrite (rows_at_lookup d idx vals l v). }
  unfold reindex. f_equal.
  - rewrite <-list_fmap_compose. apply list_fmap_id.
  - by rewrite <-list_fmap_compose.
Qed.

Lemma zip_with_fmap_same {A B C D : Type} (f : B → C → D) (g : A → B) (h : A → C) l :
  zip_with f (g <$> l) (h <$> l) = (λ x, f (g x) (h x)) <$> l.
Proof. induction l as [|x l IH]; csimpl; [done|]. by rewrite IH. Qed.

Lemma changed_mask_wf df_before df_after col b a :
  wf_df df_before → wf_df df_after →
  unique_labels df_before → unique_labels df_after →
  series_of df_before col = Some b → series_of df_after col = Some a →
  changed_mask df_before df_after col
  = Ok (mask_on b a (intersection (df_index df_before) (df_index df_after))).
Proof.
  intros Hwb Hwa Hub Hua Hb Ha. unfold changed_mask, loc_labels.
  rewrite (series_of_column _ _ _ Hb), (series_of_column _ _ _ Ha). simpl.
  destruct (series_of_Some _ _ _ Hb) as [_ Hib].
  destruct (series_of_Some _ _ _ Ha) as [_ Hia].
  rewrite (take_labels_wf b); first last.
  { apply Forall_forall. intros l [Hl _]%elem_of_intersection. by rewrite Hib. }
  { exact (series_of_length _ _ _ Hwb Hb). }
  { by rewrite Hib. }
  simpl. rewrite (take_labels_wf a); first last.
  { apply Forall_forall. intros l [_ Hl]%elem_of_intersection. by rewrite Hia. }
  { exact (series_of_length _ _ _ Hwa Ha). }
  { by rewrite Hia. }
  simpl. unfold Series_ne. simpl. rewrite decide_True by done.
  unfold mask_on, reindex. by rewrite zip_with_fmap_same.
Qed.

(** ** What is printed *)

Lemma lift_Ok_bind {A B : Type} (a : A) (f : A → IO B) : lift (Ok a) ≫= f = f a.
Proof. unfold lift, mbind, IO_bind. simpl. by destruct (f a). Qed.

Lemma lift_Raise_bind {A B : Type} e (f : A → IO B) :
  lift (Raise e) ≫= f = ([], Raise e).
Proof. done. Qed.

Lemma io_bind_out {A B : Type} (m : IO A) (f : A → IO B) e :
  e ∈ (m ≫= f).1 → e ∈ m.1 ∨ ∃ a, m.2 = Ok a ∧ e ∈ (f a).1.
Proof.
  unfold mbind, IO_bind. destruct m as [out [a|err]]; simpl.
  - intros [?|?]%elem_of_app; [by left|right]. by exists a.
  - by left.
Qed.

Lemma io_for_each_out {B : Type} (body : B → IO unit) l e :
  e ∈ (io_for_each body l).1 → ∃ x, x ∈ l ∧ e ∈ (body x).1.
Proof.
  induction l as [|x l IH]; simpl.
  - by intros ?%elem_of_nil.
  - intros [Hx|(_ & _ & Hl)]%io_bind_out.
    + exists x. split; [left|done].
    + destruct (IH Hl) as (y & Hy & He). exists y. split; [by right|done].
Qed.

Lemma print_column_out df_before df_after col e :
  e ∈ (print_column df_before df_after col).1 →
  e = EChangesIn col ∨ ∃ headers cells, e = ETable headers cells.
Proof.
  unfold print_column.
  intros [[]%elem_of_nil|(mask & _ & He)]%io_bind_out.
  destruct (any mask); [|by apply elem_of_nil in He].
  apply io_bind_out in He as [He|(_ & _ & He)].
  { left. by apply list_elem_of_singleton in He. }
  apply io_bind_out in He as [[]%elem_of_nil|(Before & _ & He)].
  apply io_bind_out in He as [[]%elem_of_nil|(After & _ & He)].
  right. case_bool_decide.
  - apply io_bind_out in He as [[]%elem_of_nil|(context & _ & He)].
    apply list_elem_of_singleton in He. by eexists _, _.
  - apply list_elem_of_singleton in He. by eexists _, _.
Qed.

Lemma display_rows_none col out : EChangesIn col ∉ out → display_rows col out = [].
Proof.
  induction out as [|e out IH]; [done|].
  rewrite not_elem_of_cons. intros [Hne Hout].
  destruct e; simpl; try by apply IH.
  rewrite IH by done. rewrite app_nil_r.
  destruct out as [|[] ?]; try done.
  rewrite decide_False; [done|]. by intros ->.
Qed.

Lemma any_mask_on_false b a labels :
  (∀ l, l ∈ labels →
     py_ne (default VNaN (lookup_label l (s_index b) (s_values b)))
           (default VNaN (lookup_label l (s_index a) (s_values a))) = false) →
  any (mask_on b a labels) = false.
Proof.
  unfold any, mask_on. simpl. induction labels as [|l labels IH]; intros Hall; [done|].
  csimpl. rewrite (Hall l) by left. simpl. apply IH. intros l' Hl'. apply Hall. by right.
Qed.

(** The two cells of a common column at a shared label. *)
Lemma cells_at_shared_label df_before df_after col b a l :
  wf_df df_before → wf_df df_after →
  series_of df_before col = Some b → series_of df_after col = Some a →
  l ∈ df_index df_before → l ∈ df_index df_after →
  ∃ x y, cell df_before col l = Some x ∧ cell df_after col l = Some y
         ∧ lookup_label l (s_index b) (s_values b) = Some x
         ∧ lookup_label l (s_index a) (s_values a) = Some y.
Proof.
  intros Hwb Hwa Hb Ha Hlb Hla.
  destruct (series_of_Some _ _ _ Hb) as [_ Hib].
  destruct (series_of_Some _ _ _ Ha) as [_ Hia].
  destruct (lookup_label_is_Some l (s_index b) (s_values b)) as [x Hx];
    [exact (series_of_length _ _ _ Hwb Hb)|by rewrite Hib|].
  destruct (lookup_label_is_Some l (s_index a) (s_values a)) as [y Hy];
    [exact (series_of_length _ _ _ Hwa Ha)|by rewrite Hia|].
  exists x, y. unfold cell. rewrite Hb, Ha. simpl. by rewrite Hx, Hy.
Qed.

Lemma print_column_quiet df_before df_after col :
  wf_df df_before → wf_df df_after →
  unique_labels df_before → unique_labels df_after →
  is_common df_before df_after col →
  (∀ l x y, l ∈ df_index df_before → l ∈ df_index df_after →
     cell df_before col l = Some x → cell df_after col l = Some y → py_eq x y = true) →
  print_column df_before df_after col = ([], Ok tt).
Proof.
  intros Hwb Hwa Hub Hua [Hcb Hca] Heq.
  destruct (series_of_wf _ _ (wf_columns _ Hwb) Hcb) as (b & Hb & _).
  destruct (series_of_wf _ _ (wf_columns _ Hwa) Hca) as (a & Ha & _).
  unfold print_column.
  rewrite (changed_mask_wf _ _ _ b a) by done. rewrite lift_Ok_bind.
  rewrite any_mask_on_false; [done|].
  intros l [Hlb Hla]%elem_of_intersection.
  destruct (cells_at_shared_label _ _ _ _ _ l Hwb Hwa Hb Ha Hlb Hla)
    as (x & y & Hx & Hy & -> & ->).
  simpl. unfold py_ne. by rewrite (Heq l x y).
Qed.

(** ** The reporter: claims *)

Section ReporterClaims.
Context {PS : PySet}.
Implicit Types (df_before df_after : DataFrame) (r : DataFrameChanges).

(** C6, for the equality the reporter tests. A column of [content_changes]
    of two well-formed frames with distinct row labels, whose values before
    and after are equal for [==] at every row label the two frames share
    (a missing value is equal to nothing for [==]): the reporter prints no
    [Changes in] line and draws no row for it. *)
Theorem no_display_rows_when_equal_on_shared_labels
    df_before df_after function_name r c :
  wf_df df_before → wf_df df_after →
  unique_labels df_before → unique_labels df_after →
  compare_df df_before df_after = Ok r →
  c ∈ content_changes r →
  (∀ l x y, l ∈ df_index df_before → l ∈ df_index df_after →
     cell df_before c l = Some x → cell df_after c l = Some y → py_eq x y = true) →
  let printed := (_print_content_changes df_before df_after (content_changes r)).1 in
  let out := (analyze_dataframe_changes df_before df_after function_name).1 in
  ((EChangesIn c ∉ printed) ∧ display_rows c printed = [])
  ∧ ((EChangesIn c ∉ out) ∧ display_rows c out = []).
Proof.
  intros Hwb Hwa Hub Hua Hr Hc Heq printed out. subst printed out.
  assert (is_common df_before df_after c) as Hcommon.
  { destruct (compare_df_inv _ _ _ Hr) as (_ & _ & _ & M & C & _).
    apply C in Hc. rewrite M in Hc.
    by apply list_elem_of_filter in Hc as [_ ?%elem_of_common_cols]. }
  assert (EChangesIn c ∉ (_print_content_changes df_before df_after (content_changes r)).1)
    as Hloop.
  { intros (x & _ & Hx)%io_for_each_out.
    assert (x = c) as ->.
    { apply print_column_out in Hx as [[= ->]|(? & ? & [=])]. done. }
    rewrite print_column_quiet in Hx by done. by apply elem_of_nil in Hx. }
  assert (EChangesIn c ∉ (analyze_dataframe_changes df_before df_after function_name).1)
    as Hall.
  { unfold analyze_dataframe_changes. rewrite Hr, lift_Ok_bind.
    intros [He|(_ & _ & He)]%io_bind_out.
    { destruct function_name as [name|]; [case_bool_decide|]; simpl in He.
      - by apply list_elem_of_singleton in He.
      - by apply elem_of_nil in He.
      - by apply elem_of_nil in He. }
    apply io_bind_out in He as [He|(_ & _ & He)].
    { case_bool_decide; by apply list_elem_of_singleton in He. }
    case_bool_decide; [|by apply elem_of_nil in He].
    apply io_bind_out in He as [He|(_ & _ & He)].
    - by apply list_elem_of_singleton in He.
    - by apply Hloop. }
  split; (split; [done|by apply display_rows_none]).
Qed.
End ReporterClaims.

Lemma no_display_rows_when_equal_on_shared_labels_witness :
  display_rows "value"
    (analyze_dataframe_changes (PS := slot_set) Fixtures.three_rows Fixtures.two_rows None).1
  = [].
Proof.
  refine (proj2 (proj2 (no_display_rows_when_equal_on_shared_labels (PS := slot_set)
            Fixtures.three_rows Fixtures.two_rows None
            {| rows := RowChanges_init 3 2;
               columns := {| added := []; removed := []; modified := ["id"; "value"] |};
               schema_changes := ∅;
               content_changes := ["id"; "value"] |}
            "value" wf_three_rows wf_two_rows _ _ _ _ _))).
  - unfold unique_labels. refine (bool_decide_unpack _ _). vm_compute. exact I.
  - unfold unique_labels. refine (bool_decide_unpack _ _). vm_compute. exact I.
  - vm_compute. reflexivity.
  - simpl. right. left.
  - simpl. intros l x y _ Hl.
    apply elem_of_cons in Hl as [->|Hl]; [|apply elem_of_cons in Hl as [->|[]%elem_of_nil]].
    + vm_compute. by intros [= <-] [= <-].
    + vm_compute. by intros [= <-] [= <-].
Defined.

(** C6 with the equality of the specification, under which two missing
    values at one position are equal. [scores_reordered] holds the rows of
    [scores] in another order: at each of the labels 0, 1 and 2 the two
    cells of [score] are equal in that sense, and [score] is in
    [content_changes] for the index alone. The reporter prints
    [Changes in score:] and draws the row of label 0, where both cells are
    missing. *)
Lemma equal_on_shared_labels_counterexample :
  wf_df Samples.scores ∧ wf_df Samples.scores_reordered
  ∧ unique_labels Samples.scores ∧ unique_labels Samples.scores_reordered
  ∧ (∀ l x y, l ∈ df_index Samples.scores → l ∈ df_index Samples.scores_reordered →
       cell Samples.scores "score" l = Some x →
       cell Samples.scores_reordered "score" l = Some y →
       spec_values_equal x y)
  ∧ (∃ r, compare_df (PS := slot_set) Samples.scores Samples.scores_reordered = Ok r
          ∧ "score" ∈ content_changes r)
  ∧ EChangesIn "score"
      ∈ (analyze_dataframe_changes (PS := slot_set)
           Samples.scores Samples.scores_reordered None).1
  ∧ display_rows "score"
      (analyze_dataframe_changes (PS := slot_set)
         Samples.scores Samples.scores_reordered None).1
    = [[VNaN; VNaN]].
Proof.
  split_and!.
  - wf_by_computation.
  - wf_by_computation.
  - unfold unique_labels. refine (bool_decide_unpack _ _). vm_compute. exact I.
  - unfold unique_labels. refine (bool_decide_unpack _ _). vm_compute. exact I.
  - intros l x y Hl _. simpl in Hl.
    rewrite !elem_of_cons, elem_of_nil in Hl.
    destruct Hl as [->|[->|[->|[]]]]; vm_compute; intros [= <-] [= <-].
    + left. by split.
    + right. by split_and!.
    + right. by split_and!.
  - eexists. split; [vm_compute; reflexivity|]. left.
  - refine (bool_decide_unpack _ _). vm_compute. exact I.
  - vm_compute. reflexivity.
Qed.

Lemma lookup_label_fmap {V : Type} (f : Z → V) l labels :
  l ∈ labels → lookup_label l labels (f <$> labels) = Some (f l).
Proof.
  induction labels as [|i labels IH]; csimpl.
  - by intros ?%elem_of_nil.
  - intros Hl. destruct (decide (i = l)) as [->|Hne]; [done|].
    apply IH. apply elem_of_cons in Hl as [->|?]; done.
Qed.

Lemma existsb_lookup_label l idx (vals : list bool) :
  lookup_label l idx vals = Some true → existsb id vals = true.
Proof.
  revert vals. induction idx as [|i idx IH]; intros [|v vals]; simpl; try done.
  destruct (decide (i = l)) as [->|Hne].
  - by intros [= ->].
  - intros Hl. rewrite (IH _ Hl). apply orb_true_r.
Qed.

Lemma array_equivalent_missing l r :
  length l = length r →
  (∀ k x y, l !! k = Some x → r !! k = Some y →
     py_eq x y = true ∨ (x = VNaN ∧ y = VNaN)) →
  array_equivalent l r = true.
Proof.
  intros Hlen Hall. apply array_equivalent_spec. split; [done|].
  intros k x y Hx Hy. unfold value_equiv.
  destruct (Hall k x y Hx Hy) as [->|[-> ->]]; [done|]. apply orb_true_r.
Qed.

Lemma singleton_list {A : Type} (l : list A) a :
  NoDup l → (∀ x, x ∈ l ↔ x = a) → l = [a].
Proof.
  intros Hnd Hl. destruct l as [|x l].
  - exfalso. eapply not_elem_of_nil, Hl. done.
  - assert (x = a) as -> by (apply Hl; left).
    f_equal. apply elem_of_nil_inv. intros y Hy.
    apply NoDup_cons in Hnd as [Hx _]. apply Hx.
    assert (y = a) as <- by (apply Hl; by right). done.
Qed.

Section MissingValues.
Context {PS : PySet}.
Implicit Types (df_before df_after : DataFrame) (r : DataFrameChanges).

(** C9. A row label the two frames share at which both cells of a common
    column are NaN: the reporter's comparison, which is [!=] cell by cell,
    marks the row as changed, where the engine's [equals] takes two
    missing values for equal; when such rows are all that [!=] finds in a
    column, the column is not in [content_changes]; and a row of two NaN
    is drawn, as in the report on [with_nan] and [with_nan_later]. *)
Theorem both_missing_counts_as_changed df_before df_after c l :
  wf_df df_before → wf_df df_after →
  unique_labels df_before → unique_labels df_after →
  is_common df_before df_after c →
  l ∈ df_index df_before → l ∈ df_index df_after →
  cell df_before c l = Some VNaN → cell df_after c l = Some VNaN →
  (∃ mask, changed_mask df_before df_after c = Ok mask
           ∧ lookup_label l (m_index mask) (m_values mask) = Some true
           ∧ any mask = true)
  ∧ (py_ne VNaN VNaN = true ∧ value_equiv VNaN VNaN = true)
  ∧ (∀ r b a,
       compare_df df_before df_after = Ok r →
       series_of df_before c = Some b → series_of df_after c = Some a →
       s_dtype b = s_dtype a → s_index b = s_index a →
       (∀ k x y, s_values b !! k = Some x → s_values a !! k = Some y →
          py_eq x y = true ∨ (x = VNaN ∧ y = VNaN)) →
       c ∉ content_changes r)
  ∧ [VNaN; VNaN]
    ∈ display_rows "score"
        (analyze_dataframe_changes Fixtures.with_nan Fixtures.with_nan_later None).1.
Proof.
  intros Hwb Hwa Hub Hua [Hcb Hca] Hlb Hla Hnb Hna.
  destruct (series_of_wf _ _ (wf_columns _ Hwb) Hcb) as (b & Hb & _).
  destruct (series_of_wf _ _ (wf_columns _ Hwa) Hca) as (a & Ha & _).
  split_and!.
  - exists (mask_on b a (intersection (df_index df_before) (df_index df_after))).
    split; [by apply changed_mask_wf|].
    assert (lookup_label l
              (m_index (mask_on b a (intersection (df_index df_before) (df_index df_after))))
              (m_values (mask_on b a (intersection (df_index df_before) (df_index df_after))))
            = Some true) as Hl.
    { unfold mask_on. simpl.
      rewrite lookup_label_fmap by (by apply elem_of_intersection).
      unfold cell in Hnb, Hna. rewrite Hb in Hnb. rewrite Ha in Hna. simpl in *.
      by rewrite Hnb, Hna. }
    split; [done|]. unfold any. by eapply existsb_lookup_label.
  - done.
  - done.
  - intros r b' a' Hr Hb' Ha' Hd Hi Hall Hin.
    destruct (compare_df_inv _ _ _ Hr) as (_ & _ & _ & M & C & _).
    apply C in Hin. rewrite M in Hin. apply list_elem_of_filter in Hin as [Hdiff _].
    unfold content_differs in Hdiff. rewrite Hb', Ha' in Hdiff.
    unfold Series_equals in Hdiff.
    rewrite !bool_decide_eq_true_2, array_equivalent_missing in Hdiff; try done.
    rewrite (series_of_length _ _ _ Hwb Hb'), (series_of_length _ _ _ Hwa Ha').
    by rewrite Hi.
  - destruct (compare_df_total Fixtures.with_nan Fixtures.with_nan_later) as [r Hr];
      [by apply NoDup_singleton..|].
    destruct (compare_df_inv _ _ _ Hr) as (R & _ & _ & M & C & Hnd & _).
    assert (content_changes r = ["score"]) as Hcc.
    { apply singleton_list; [done|]. intros x.
      rewrite C, M, list_elem_of_filter, elem_of_common_cols.
      unfold is_common, df_columns. simpl. rewrite !list_elem_of_singleton.
      split; [by intros [_ [? _]]|by intros ->]. }
    unfold analyze_dataframe_changes. rewrite Hr, lift_Ok_bind, R, Hcc.
    vm_compute. left.
Qed.
End MissingValues.

Lemma both_missing_counts_as_changed_witness :
  ∃ mask, changed_mask Fixtures.with_nan Fixtures.with_nan_later "score" = Ok mask
          ∧ lookup_label 0 (m_index mask) (m_values mask) = Some true
          ∧ any mask = true.
Proof.
  refine (proj1 (both_missing_counts_as_changed (PS := slot_set)
            Fixtures.with_nan Fixtures.with_nan_later "score" 0 _ _ _ _ _ _ _ _ _)).
  - wf_by_computation.
  - wf_by_computation.
  - unfold unique_labels. refine (bool_decide_unpack _ _). vm_compute. exact I.
  - unfold unique_labels. refine (bool_decide_unpack _ _). vm_compute. exact I.
  - unfold is_common. split; refine (bool_decide_unpack _ _); vm_compute; exact I.
  - simpl. left.
  - simpl. left.
  - vm_compute. reflexivity.
  - vm_compute. reflexivity.
Defined.

(** ** The decorator *)

Section DecoratorFacts.
Variable analyze : DataFrame → DataFrame → option string → IO unit.
Implicit Types (func : pyfunc) (args : list pyobj) (kwargs : list (string * pyobj)).

(** Without a DataFrame among the arguments the core is not called: the
    decorated function behaves as the function, whatever the core is. *)
Lemma wrapper_without_dataframe name func args kwargs :
  _find_dataframe_arg args kwargs = None →
  wrapper_with analyze name func args kwargs = lift (func args kwargs).
Proof.
  intros Hnone. unfold wrapper_with. rewrite Hnone.
  destruct (func args kwargs) as [result|e]; [|done].
  rewrite lift_Ok_bind. by destruct (as_dataframe result).
Qed.

(** Nor is it called when the result is not a DataFrame. *)
Lemma wrapper_other_result name func args kwargs result :
  func args kwargs = Ok result → as_dataframe result = None →
  wrapper_with analyze name func args kwargs = ([], Ok result).
Proof.
  intros Hres Hnone. unfold wrapper_with. rewrite Hres, lift_Ok_bind. by rewrite Hnone.
Qed.

(** An exception of the function is the exception of the decorated
    function. *)
Lemma wrapper_func_raises name func args kwargs e :
  func args kwargs = Raise e →
  wrapper_with analyze name func args kwargs = ([], Raise e).
Proof. intros Hres. unfold wrapper_with. by rewrite Hres. Qed.

(** When the core is called, the decorated function returns the result of
    the function if the core returns, and raises what the core raises. *)
Lemma wrapper_with_dataframe name func args kwargs df_before df_after :
  _find_dataframe_arg args kwargs = Some df_before →
  func args kwargs = Ok (ODataFrame df_after) →
  (wrapper_with analyze name func args kwargs).2
  = match (analyze df_before df_after (Some name)).2 with
    | Ok _ => Ok (ODataFrame df_after)
    | Raise e => Raise e
    end.
Proof.
  intros Hdf Hres. unfold wrapper_with. rewrite Hdf, Hres, lift_Ok_bind. simpl.
  unfold mbind, IO_bind. by destruct (analyze df_before df_after (Some name)) as [? [[]|?]].
Qed.
End DecoratorFacts.

Lemma two_element_list {A : Type} (l : list A) a b :
  NoDup l → a ≠ b → (∀ x, x ∈ l ↔ x = a ∨ x = b) → l = [a; b] ∨ l = [b; a].
Proof.
  intros Hnd Hab Hl.
  assert (∀ (l' : list A) c d, NoDup (c :: l') → (∀ x, x ∈ c :: l' ↔ x = c ∨ x = d) →
            c ≠ d → l' = [d]) as Hrest.
  { intros l' c d Hnd' Hl' Hcd. apply NoDup_cons in Hnd' as [Hc Hnd'].
    apply singleton_list; [done|]. intros x. split.
    - intros Hx. assert (x ∈ c :: l') as Hx' by (by right).
      apply Hl' in Hx'. destruct Hx' as [-> | ->]; done.
    - intros ->. assert (d ∈ c :: l') as Hd by (apply Hl'; by right).
      apply elem_of_cons in Hd. destruct Hd as [->|Hd]; done. }
  destruct l as [|x l].
  { exfalso. eapply not_elem_of_nil, Hl. by left. }
  assert (x = a ∨ x = b) as Hx by (apply Hl; left).
  destruct Hx as [-> | ->].
  - left. f_equal. by apply (Hrest l a b).
  - right. f_equal. apply (Hrest l b a); [done| |done].
    intros y. rewrite Hl. tauto.
Qed.

(** C8 at its failing input. [drop_and_change] returns a DataFrame; wrapped,
    the call raises: [id] and [value] are in [content_changes], the mask of
    [value] has an entry for the rows 0 and 1, and
    [df_before.loc[changed_mask, "value"]] selects from the rows 0, 1 and
    2. This is so under every implementation of sets. *)
Theorem wrapper_raises_when_a_row_is_dropped {PS : PySet} :
  Fixtures.drop_and_change [ODataFrame Fixtures.three_rows] []
  = Ok (ODataFrame Fixtures.two_rows_changed)
  ∧ _find_dataframe_arg [ODataFrame Fixtures.three_rows] [] = Some Fixtures.three_rows
  ∧ (track_dataframe_changes "drop_and_change" Fixtures.drop_and_change
       [ODataFrame Fixtures.three_rows] []).2
    = Raise IndexingError.
Proof.
  split; [done|]. split; [done|].
  unfold track_dataframe_changes.
  rewrite (wrapper_with_dataframe _ _ _ _ _ Fixtures.three_rows Fixtures.two_rows_changed)
    by done.
  destruct (compare_df_total Fixtures.three_rows Fixtures.two_rows_changed) as [r Hr].
  { wf_by_computation. }
  { wf_by_computation. }
  destruct (compare_df_inv _ _ _ Hr) as (R & _ & _ & M & C & Hnd & _).
  assert (content_changes r = ["id"; "value"] ∨ content_changes r = ["value"; "id"]) as Hcc.
  { apply two_element_list; [done..|]. intros x.
    rewrite C, M, list_elem_of_filter, elem_of_common_cols.
    unfold is_common, df_columns. simpl.
    rewrite !elem_of_cons, !elem_of_nil.
    split.
    - intros [_ [[?|[?|[]]] _]]; tauto.
    - intros [->| ->]; (split; [vm_compute; exact I|tauto]). }
  unfold analyze_dataframe_changes. rewrite Hr, lift_Ok_bind, R.
  destruct Hcc as [-> | ->]; vm_compute; reflexivity.
Qed.

(** ** The two copies of the decorator agree *)

Lemma io_bind_assoc {A B C : Type} (m : IO A) (f : A → IO B) (g : B → IO C) :
  (m ≫= f) ≫= g = m ≫= (λ a, f a ≫= g).
Proof.
  unfold mbind, IO_bind. destruct m as [out [a|e]]; simpl; [|done].
  destruct (f a) as [out' [b|e]]; simpl; [|done].
  by rewrite app_assoc.
Qed.

Lemma io_ret_bind {A B : Type} (a : A) (f : A → IO B) : mret a ≫= f = f a.
Proof. unfold mret, IO_ret, mbind, IO_bind. simpl. by destruct (f a). Qed.

Lemma io_bind_ext {A B : Type} (m : IO A) (f g : A → IO B) :
  (∀ a, f a = g a) → m ≫= f = m ≫= g.
Proof.
  intros Hfg. unfold mbind, IO_bind. destruct m as [out [a|e]]; simpl; [|done].
  by rewrite Hfg.
Qed.

Lemma same_but_arrow_bind {A B : Type} (m m' : IO A) (f f' : A → IO B) :
  same_but_arrow m m' → (∀ a, same_but_arrow (f a) (f' a)) →
  same_but_arrow (m ≫= f) (m' ≫= f').
Proof.
  intros [Hres Hout] Hf. unfold same_but_arrow, mbind, IO_bind in *.
  destruct m as [out [a|e]], m' as [out' [a'|e']]; simpl in *; try done.
  - injection Hres as ->. destruct (Hf a') as [-> <-].
    split; [done|]. by rewrite fmap_app, Hout.
  - injection Hres as ->. by split.
Qed.

Lemma same_but_arrow_refl {A : Type} (m : IO A) :
  (∀ e, e ∈ m.1 → newer_line e = e) → same_but_arrow m m.
Proof.
  intros Hm. split; [done|].
  induction (m.1) as [|e out IH]; [done|]. csimpl.
  rewrite Hm by left. f_equal. apply IH. intros e' He'. apply Hm. by right.
Qed.

Lemma newer_line_print_column df_before df_after cols e :
  e ∈ (io_for_each (print_column df_before df_after) cols).1 → newer_line e = e.
Proof.
  intros (c & _ & He)%io_for_each_out.
  by apply print_column_out in He as [->|(? & ? & ->)].
Qed.


(** * Further properties *)

(** ** The engine *)

Lemma py_eq_sym x y : py_eq x y = py_eq y x.
Proof.
  destruct x, y; simpl; try done; apply bool_decide_ext; split; by intros ->.
Qed.

Lemma array_equivalent_sym l r : array_equivalent l r = array_equivalent r l.
Proof.
  revert r. induction l as [|x l IH]; intros [|y r]; simpl; try done.
  rewrite IH. f_equal. unfold value_equiv.
  by rewrite py_eq_sym, (andb_comm (isna x)).
Qed.

Lemma Series_equals_sym a b : Series_equals a b = Series_equals b a.
Proof.
  unfold Series_equals. rewrite array_equivalent_sym.
  rewrite (bool_decide_ext (s_index a = s_index b) (s_index b = s_index a)) by done.
  by rewrite (bool_decide_ext (s_dtype a = s_dtype b) (s_dtype b = s_dtype a)).
Qed.

Lemma content_differs_sym A B c : content_differs A B c = content_differs B A c.
Proof.
  unfold content_differs.
  destruct (series_of A c), (series_of B c); try done. by rewrite Series_equals_sym.
Qed.

Lemma elem_of_named (df : DataFrame) col : col ∈ df_columns df ↔ named col df ≠ [].
Proof.
  unfold df_columns, named. split.
  - intros ([k v] & -> & Hin)%list_elem_of_fmap Hnil.
    assert ((k, v) ∈ filter (λ kv : string * (dtype * list value), kv.1 = k) (df_data df))
      as Hf by (by apply list_elem_of_filter).
    simpl in Hnil. rewrite Hnil in Hf. by apply elem_of_nil in Hf.
  - intros Hne.
    destruct (filter (λ kv : string * (dtype * list value), kv.1 = col) (df_data df))
      as [|[k v] rest] eqn:Hf; [done|].
    assert ((k, v) ∈ filter (λ kv : string * (dtype * list value), kv.1 = col) (df_data df))
      as Hin by (rewrite Hf; left).
    apply list_elem_of_filter in Hin as [Hk Hin]. simpl in Hk. subst k.
    apply list_elem_of_fmap. by exists (col, v).
Qed.

Lemma series_of_None_iff (df : DataFrame) col :
  col ∈ df_columns df → series_of df col = None ↔ repeated df col.
Proof.
  intros Hin%elem_of_named. unfold series_of, getitem, repeated.
  destruct (named col df) as [|[k [d vs]] [|? ?]]; simpl; try done.
  - split; [done|lia].
  - split; [lia|done].
Qed.

Lemma getitem_repeated (df : DataFrame) col :
  repeated df col → getitem df col ≫= get_dtype = Raise AttributeError.
Proof.
  unfold repeated, getitem.
  destruct (named col df) as [|[k [d vs]] [|? ?]]; simpl; try lia. done.
Qed.

Section EngineMore.
Context {PS : PySet}.
Implicit Types (df_before df_after : DataFrame) (r : DataFrameChanges).

Lemma compare_step_schema st col b a x :
  schema_changes (compare_step st col b a).1 !! x
  = if decide (x = col ∧ s_dtype b ≠ s_dtype a)
    then Some (dtype_str (s_dtype b), dtype_str (s_dtype a))
    else schema_changes st.1 !! x.
Proof.
  unfold compare_step.
  assert (∀ c : DataFrameChanges,
    schema_changes (if negb (Series_equals b a) then (append_modified col c, set_add col st.2)
                    else (c, st.2)).1 = schema_changes c) as ->
    by (intros c; by destruct (negb (Series_equals b a))).
  case_bool_decide as Hd; simpl.
  - destruct (decide (x = col)) as [->|Hne].
    + rewrite lookup_insert_eq. by rewrite decide_True.
    + rewrite lookup_insert_ne by done. rewrite decide_False; [done|]. by intros [? _].
  - rewrite decide_False; [done|]. by intros [_ ?].
Qed.

Lemma loop_schema df_before df_after l : ∀ st st',
  for_each (compare_col df_before df_after) st l = Ok st' →
  ∀ x, schema_changes st'.1 !! x
       = if decide (x ∈ l ∧ dtype_differs df_before df_after x)
         then dtype_labels df_before df_after x
         else schema_changes st.1 !! x.
Proof.
  induction l as [|col l IH]; intros st st' Hloop x; simpl in Hloop.
  - injection Hloop as <-. rewrite decide_False; [done|]. by intros [?%elem_of_nil _].
  - destruct (compare_col df_before df_after st col) as [st1|] eqn:Hcol; [|done].
    apply compare_col_inv in Hcol as (b & a & Hb & Ha & ->).
    rewrite (IH _ _ Hloop x), compare_step_schema.
    assert (dtype_differs df_before df_after col = bool_decide (s_dtype b ≠ s_dtype a)) as Hd
      by (unfold dtype_differs; by rewrite Hb, Ha).
    assert (dtype_labels df_before df_after col
            = Some (dtype_str (s_dtype b), dtype_str (s_dtype a))) as Hl
      by (unfold dtype_labels; by rewrite Hb, Ha).
    destruct (decide (x ∈ l ∧ dtype_differs df_before df_after x)) as [[Hx Hdx]|Hn].
    + rewrite decide_True; [done|]. split; [by right|done].
    + destruct (decide (x = col ∧ s_dtype b ≠ s_dtype a)) as [[-> Hne]|Hn'].
      * rewrite decide_True; [done|]. split; [left|]. rewrite Hd. by apply bool_decide_pack.
      * rewrite decide_False; [done|]. intros [Hx Hdx].
        apply elem_of_cons in Hx as [->|Hx]; [|by apply Hn].
        apply Hn'. split; [done|]. rewrite Hd in Hdx. by apply bool_decide_unpack in Hdx.
Qed.

Lemma schema_changes_lookup df_before df_after r c :
  compare_df df_before df_after = Ok r →
  schema_changes r !! c
  = match series_of df_before c, series_of df_after c with
    | Some b, Some a =>
        if decide (s_dtype b = s_dtype a) then None
        else Some (dtype_str (s_dtype b), dtype_str (s_dtype a))
    | _, _ => None
    end.
Proof.
  intros Hr. unfold compare_df in Hr.
  match type of Hr with context [for_each ?f ?s ?l] =>
    destruct (for_each f s l) as [st|] eqn:Hloop; [|done] end.
  injection Hr as <-. simpl. rewrite (loop_schema _ _ _ _ _ Hloop c). simpl.
  rewrite lookup_empty. unfold dtype_differs, dtype_labels.
  destruct (series_of df_before c) as [b|] eqn:Hb;
    [destruct (series_of df_after c) as [a|] eqn:Ha|].
  - assert (c ∈ set_iter (common_cols df_before df_after)) as Hc.
    { apply elem_of_common_cols. split; by eapply series_of_elem_of. }
    destruct (decide (s_dtype b = s_dtype a)) as [Hd|Hd].
    + rewrite decide_False; [done|]. intros [_ Hx]. by apply bool_decide_unpack in Hx.
    + rewrite decide_True; [done|]. split; [done|]. by apply bool_decide_pack.
  - by case_decide.
  - by case_decide.
Qed.

(** X1. The entry of [schema_changes] for a name: the labels of the two
    dtypes, [str(before_dtype)] and [str(after_dtype)], when the name
    selects a column in each frame and the dtypes differ, and none
    otherwise; so an entry always stands for a column of both frames whose
    dtype is not the same in the two. *)
Theorem schema_changes_entries df_before df_after r c :
  compare_df df_before df_after = Ok r →
  schema_changes r !! c
  = match series_of df_before c, series_of df_after c with
    | Some b, Some a =>
        if decide (s_dtype b = s_dtype a) then None
        else Some (dtype_str (s_dtype b), dtype_str (s_dtype a))
    | _, _ => None
    end
  ∧ ∀ p, schema_changes r !! c = Some p →
      ∃ b a, series_of df_before c = Some b ∧ series_of df_after c = Some a
             ∧ s_dtype b ≠ s_dtype a
             ∧ p = (dtype_str (s_dtype b), dtype_str (s_dtype a)).
Proof.
  intros Hr. pose proof (schema_changes_lookup _ _ _ c Hr) as Heq.
  split; [done|]. intros p. rewrite Heq.
  destruct (series_of df_before c) as [b|]; [|done].
  destruct (series_of df_after c) as [a|]; [|done].
  case_decide as Hd; [done|]. intros [= <-]. by exists b, a.
Qed.

(** X2. A column whose dtype changed is always reported as changed in
    content too: [Series.equals] is [False] on two dtypes, so every key of
    [schema_changes] is in [columns.modified] and in [content_changes]. *)
Theorem schema_change_is_content_change df_before df_after r c :
  compare_df df_before df_after = Ok r →
  is_Some (schema_changes r !! c) →
  c ∈ modified (columns r) ∧ c ∈ content_changes r.
Proof.
  intros Hr Hc.
  destruct (compare_df_inv _ _ _ Hr) as (_ & _ & _ & M & C & _ & K & _).
  apply K in Hc as [Hcommon Hd].
  assert (c ∈ modified (columns r)) as Hm.
  { rewrite M. apply list_elem_of_filter. split; [|by apply elem_of_common_cols].
    unfold dtype_differs in Hd. unfold content_differs.
    destruct (series_of df_before c) as [b|]; [|done].
    destruct (series_of df_after c) as [a|]; [|done].
    apply bool_decide_unpack in Hd. unfold Series_equals.
    rewrite (bool_decide_eq_false_2 (s_dtype b = s_dtype a)) by done.
    by rewrite andb_false_r. }
  split; [done|by apply C].
Qed.

(** X3. [columns.added] holds the names of the columns of the second frame
    that the first frame has not, [columns.removed] the names of the first
    that the second has not, each name once, also when a frame carries a
    name twice. *)
Theorem added_removed_members df_before df_after r :
  compare_df df_before df_after = Ok r →
  (∀ x, x ∈ added (columns r) ↔ x ∈ df_columns df_after ∧ x ∉ df_columns df_before)
  ∧ (∀ x, x ∈ removed (columns r) ↔ x ∈ df_columns df_before ∧ x ∉ df_columns df_after)
  ∧ NoDup (added (columns r)) ∧ NoDup (removed (columns r)).
Proof.
  intros (_ & -> & -> & _)%compare_df_inv. split_and!.
  - intros x. by rewrite elem_of_set_sub, !elem_of_set_from.
  - intros x. by rewrite elem_of_set_sub, !elem_of_set_from.
  - apply set_iter_NoDup.
  - apply set_iter_NoDup.
Qed.

(** X4. When the row indexes of the two frames differ (rows added, dropped
    or reordered), every common column is reported as changed, whatever
    its values: [Series.equals] compares the index first. *)
Theorem index_change_marks_every_common_column df_before df_after r c :
  compare_df df_before df_after = Ok r →
  df_index df_before ≠ df_index df_after →
  is_common df_before df_after c →
  c ∈ modified (columns r) ∧ c ∈ content_changes r.
Proof.
  intros Hr Hidx Hc.
  destruct (compare_df_inv _ _ _ Hr) as (_ & _ & _ & M & C & _ & _ & F).
  assert (c ∈ modified (columns r)) as Hm.
  { rewrite M. apply list_elem_of_filter. split; [|by apply elem_of_common_cols].
    rewrite Forall_forall in F.
    destruct (F c) as [[b Hb] [a Ha]]; [by apply elem_of_common_cols|].
    unfold content_differs. rewrite Hb, Ha.
    destruct (series_of_Some _ _ _ Hb) as [_ Hib].
    destruct (series_of_Some _ _ _ Ha) as [_ Hia].
    unfold Series_equals.
    rewrite (bool_decide_eq_false_2 (s_index b = s_index a)); [done|].
    by rewrite Hib, Hia. }
  split; [done|by apply C].
Qed.
(** X5. Comparing the other way round mirrors the report: the row
    difference changes its sign, added and removed names change places,
    the same columns are modified and in [content_changes], and an entry
    of [schema_changes] has its two labels exchanged. *)
Theorem compare_df_swap A B r1 r2 :
  compare_df A B = Ok r1 → compare_df B A = Ok r2 →
  difference (rows r2) = - difference (rows r1)
  ∧ (∀ x, x ∈ removed (columns r1) ↔ x ∈ added (columns r2))
  ∧ (∀ x, x ∈ modified (columns r1) ↔ x ∈ modified (columns r2))
  ∧ (∀ x, x ∈ content_changes r1 ↔ x ∈ content_changes r2)
  ∧ (∀ x p q, schema_changes r1 !! x = Some (p, q) ↔ schema_changes r2 !! x = Some (q, p)).
Proof.
  intros H1 H2.
  destruct (compare_df_inv _ _ _ H1) as (R1 & _ & D1 & M1 & C1 & _).
  destruct (compare_df_inv _ _ _ H2) as (R2 & A2 & _ & M2 & C2 & _).
  assert (∀ x, x ∈ modified (columns r1) ↔ x ∈ modified (columns r2)) as HM.
  { intros x. rewrite M1, M2, !list_elem_of_filter, !elem_of_common_cols.
    rewrite content_differs_sym. unfold is_common. tauto. }
  split_and!.
  - rewrite R1, R2. simpl. lia.
  - intros x. by rewrite D1, A2.
  - done.
  - intros x. by rewrite C1, C2.
  - intros x p q.
    rewrite (schema_changes_lookup _ _ _ x H1), (schema_changes_lookup _ _ _ x H2).
    destruct (series_of A x) as [a|]; destruct (series_of B x) as [b|]; try done.
    destruct (decide (s_dtype a = s_dtype b)) as [Hd|Hd].
    + by rewrite decide_True.
    + rewrite decide_False by (by intros ?). split; by intros [= <- <-].
Qed.

Lemma compare_col_raises df_before df_after st col :
  is_common df_before df_after col → ¬ selects df_before df_after col →
  compare_col df_before df_after st col = Raise AttributeError.
Proof.
  intros [Hb Ha] Hsel. unfold compare_col.
  destruct (series_of df_before col) as [b|] eqn:Hsb.
  - destruct (series_of df_after col) as [a|] eqn:Hsa.
    { exfalso. apply Hsel. by split; eexists. }
    apply series_of_getitem in Hsb.
    apply series_of_None_iff in Hsa; [|done].
    rewrite (getitem_repeated df_after col Hsa), Hsb. done.
  - apply series_of_None_iff in Hsb; [|done].
    by rewrite (getitem_repeated df_before col Hsb).
Qed.

Lemma loop_raises df_before df_after l : ∀ st,
  Forall (is_common df_before df_after) l →
  ¬ Forall (selects df_before df_after) l →
  for_each (compare_col df_before df_after) st l = Raise AttributeError.
Proof.
  induction l as [|col l IH]; intros st Hcommon Hsel; simpl.
  - exfalso. apply Hsel. constructor.
  - apply Forall_cons in Hcommon as [Hc Hcommon].
    destruct (decide (selects df_before df_after col)) as [[[b Hb] [a Ha]]|Hn].
    + rewrite (compare_col_Ok _ _ st _ _ _ Hb Ha). apply IH; [done|].
      intros Hall. apply Hsel. constructor; [|done]. by split; eexists.
    + by rewrite compare_col_raises.
Qed.

(** X6. [compare_df] raises exactly when a name common to the two frames
    is carried by more than one column of one of them ([df[col]] is then a
    frame, which has no [.dtype]); what it raises is [AttributeError]. *)
Theorem compare_df_raises_iff df_before df_after :
  (∀ e, compare_df df_before df_after = Raise e → e = AttributeError)
  ∧ ((∃ e, compare_df df_before df_after = Raise e) ↔
     ∃ c, is_common df_before df_after c ∧ (repeated df_before c ∨ repeated df_after c)).
Proof.
  assert (Forall (is_common df_before df_after) (set_iter (common_cols df_before df_after)))
    as Hcommon.
  { apply Forall_forall. intros x. by rewrite elem_of_common_cols. }
  destruct (decide (Forall (selects df_before df_after)
                      (set_iter (common_cols df_before df_after)))) as [Hall|Hnot].
  - assert (∃ r, compare_df df_before df_after = Ok r) as [r Hr].
    { unfold compare_df.
      match goal with |- context [for_each ?f ?s ?l] =>
        destruct (loop_total df_before df_after l s Hall) as [st ->] end. by eexists. }
    split; [intros e; by rewrite Hr|]. split.
    + intros [e He]. by rewrite Hr in He.
    + intros (c & Hc & Hrep). exfalso.
      rewrite Forall_forall in Hall.
      destruct (Hall c) as [[b Hb] [a Ha]]; [by apply elem_of_common_cols|].
      destruct Hc as [Hcb Hca].
      destruct Hrep as [Hrep|Hrep].
      * apply series_of_None_iff in Hrep; [|done]. by rewrite Hrep in Hb.
      * apply series_of_None_iff in Hrep; [|done]. by rewrite Hrep in Ha.
  - assert (compare_df df_before df_after = Raise AttributeError) as Hr.
    { unfold compare_df. by rewrite loop_raises. }
    split; [intros e; rewrite Hr; by intros [= <-]|]. split; [|by eexists].
    intros _. apply not_Forall_Exists in Hnot; [|apply _].
    apply Exists_exists in Hnot as (c & Hc & Hsel).
    exists c. apply elem_of_common_cols in Hc. split; [done|].
    destruct Hc as [Hcb Hca]. simpl in Hsel.
    destruct (series_of df_before c) as [b|] eqn:Hb.
    + right. apply series_of_None_iff; [done|].
      destruct (series_of df_after c) as [a|] eqn:Ha; [|done].
      exfalso. apply Hsel. unfold selects. rewrite Hb, Ha. by split; eexists.
    + left. by apply series_of_None_iff.
Qed.
End EngineMore.

(** ** The reporter *)

Lemma lookup_label_None {V : Type} l idx (vals : list V) :
  l ∉ idx → lookup_label l idx vals = None.
Proof.
  revert vals. induction idx as [|i idx IH]; intros [|v vals] Hl; simpl; try done.
  apply not_elem_of_cons in Hl as [Hne Hl].
  rewrite decide_False by done. by apply IH.
Qed.

Lemma zip_lookup_label (idx : list Z) (vals : list value) :
  NoDup idx → length vals = length idx →
  zip idx vals = (λ l, (l, default VNaN (lookup_label l idx vals))) <$> idx.
Proof.
  revert vals. induction idx as [|i idx IH]; intros [|v vals] Hnd Hlen; simpl in *;
    try done.
  apply NoDup_cons in Hnd as [Hi Hnd]. csimpl.
  rewrite decide_True by done. simpl. f_equal.
  rewrite IH by (done || by injection Hlen).
  apply Forall_fmap_ext_1, Forall_forall. intros l Hl.
  rewrite decide_False; [done|]. by intros ->.
Qed.

Lemma filter_fmap {A B : Type} (P : B → Prop) `{!∀ y, Decision (P y)} (h : A → B)
    (l : list A) :
  filter P (h <$> l) = h <$> filter (λ x, P (h x)) l.
Proof.
  induction l as [|x l IH]; csimpl; [done|].
  rewrite !filter_cons. by destruct (decide (P (h x))); csimpl; rewrite IH.
Qed.

Lemma any_fmap_true (f : Z → bool) labels :
  filter (λ l, f l = true) labels ≠ [] → any (mkMask labels (f <$> labels)) = true.
Proof.
  unfold any. simpl. induction labels as [|l labels IH]; csimpl; [done|].
  rewrite filter_cons. destruct (decide (f l = true)) as [Hf|Hf].
  - by rewrite Hf.
  - intros Hne. rewrite (IH Hne). apply orb_true_r.
Qed.

Lemma any_fmap_false (f : Z → bool) labels :
  filter (λ l, f l = true) labels = [] → any (mkMask labels (f <$> labels)) = false.
Proof.
  unfold any. simpl. induction labels as [|l labels IH]; csimpl; [done|].
  rewrite filter_cons. destruct (decide (f l = true)) as [Hf|Hf]; [done|].
  intros Hnil. rewrite (IH Hnil). by destruct (f l).
Qed.

Lemma check_bool_indexer_aligned (f : Z → bool) idx labels :
  Forall (λ l, l ∈ labels) idx →
  check_bool_indexer idx (mkMask labels (f <$> labels)) = Ok (f <$> idx).
Proof.
  intros Hall. unfold check_bool_indexer. simpl.
  destruct (decide (labels = idx)) as [->|Hne]; [done|].
  assert (mapM (λ l, lookup_label l labels (f <$> labels)) idx = Some (f <$> idx)) as ->; [|done].
  apply mapM_Some. clear Hne.
  induction Hall as [|l idx Hl _ IH]; csimpl; [constructor|].
  constructor; [|done]. by apply lookup_label_fmap.
Qed.

Lemma check_bool_indexer_unaligned idx (key : Mask) l :
  l ∈ idx → l ∉ m_index key →
  check_bool_indexer idx key = Raise IndexingError.
Proof.
  intros Hl Hnl. unfold check_bool_indexer.
  rewrite decide_False by (intros Heq; apply Hnl; by rewrite Heq).
  rewrite (mapM_None_2 (λ l, lookup_label l (m_index key) (m_values key))); [done|].
  apply Exists_exists. exists l. split; [done|]. by apply lookup_label_None.
Qed.

Lemma take_mask_aligned s (f : Z → bool) labels :
  NoDup (s_index s) → length (s_values s) = length (s_index s) →
  Forall (λ l, l ∈ labels) (s_index s) →
  take_mask s (mkMask labels (f <$> labels)) = Ok (selected s f).
Proof.
  intros Hnd Hlen Hall. unfold take_mask.
  rewrite check_bool_indexer_aligned by done. simpl. f_equal.
  rewrite zip_lookup_label by done.
  rewrite zip_with_fmap_same, filter_fmap. simpl.
  unfold selected, reindex. f_equal.
  - rewrite <-!list_fmap_compose. apply list_fmap_id.
  - by rewrite <-!list_fmap_compose.
Qed.

Lemma take_mask_unaligned s (key : Mask) l :
  l ∈ s_index s → l ∉ m_index key → take_mask s key = Raise IndexingError.
Proof.
  intros Hl Hnl. unfold take_mask. by rewrite (check_bool_indexer_unaligned _ _ l).
Qed.

Lemma value_at_series df col s l :
  series_of df col = Some s →
  value_at df col l = default VNaN (lookup_label l (s_index s) (s_values s)).
Proof. intros Hs. unfold value_at, cell. by rewrite Hs. Qed.

Lemma changed_labels_series df_before df_after col b a :
  series_of df_before col = Some b → series_of df_after col = Some a →
  changed_labels df_before df_after col
  = filter (λ l, changed_at b a l = true)
      (intersection (df_index df_before) (df_index df_after)).
Proof.
  intros Hb Ha. unfold changed_labels. apply list_filter_iff. intros l.
  by rewrite (value_at_series _ _ _ l Hb), (value_at_series _ _ _ l Ha).
Qed.

Lemma name_column_wf df :
  wf_df df →
  if bool_decide ("name" ∈ df_columns df) then is_Some (series_of df "name")
  else series_of df "name" = None.
Proof.
  intros Hwf. case_bool_decide as Hin.
  - destruct (series_of_wf _ _ (wf_columns _ Hwf) Hin) as (s & Hs & _). by eexists.
  - destruct (series_of df "name") as [s|] eqn:Hs; [|done].
    exfalso. apply Hin. by eapply series_of_elem_of.
Qed.

Section PrintColumn.
Variables (df_before df_after : DataFrame) (col : string) (b a : Series).
Hypothesis Hwb : wf_df df_before.
Hypothesis Hwa : wf_df df_after.
Hypothesis Hub : unique_labels df_before.
Hypothesis Hua : unique_labels df_after.
Hypothesis Hb : series_of df_before col = Some b.
Hypothesis Ha : series_of df_after col = Some a.

Let common := intersection (df_index df_before) (df_index df_after).

Lemma changed_mask_as_fmap :
  changed_mask df_before df_after col = Ok (mkMask common (changed_at b a <$> common)).
Proof. by rewrite (changed_mask_wf _ _ _ b a). Qed.

Lemma loc_mask_aligned df c s :
  wf_df df → unique_labels df → series_of df c = Some s →
  Forall (λ l, l ∈ common) (df_index df) →
  loc_mask df (mkMask common (changed_at b a <$> common)) c = Ok (selected s (changed_at b a)).
Proof.
  intros Hwf Hu Hs Hall. unfold loc_mask. rewrite (series_of_column _ _ _ Hs). simpl.
  destruct (series_of_Some _ _ _ Hs) as [_ Hi].
  apply take_mask_aligned.
  - by rewrite Hi.
  - exact (series_of_length _ _ _ Hwf Hs).
  - by rewrite Hi.
Qed.

Lemma loc_mask_unaligned df c s l :
  series_of df c = Some s → l ∈ df_index df → l ∉ common →
  loc_mask df (mkMask common (changed_at b a <$> common)) c = Raise IndexingError.
Proof.
  intros Hs Hl Hnl. unfold loc_mask. rewrite (series_of_column _ _ _ Hs). simpl.
  destruct (series_of_Some _ _ _ Hs) as [_ Hi].
  apply (take_mask_unaligned _ _ l); [by rewrite Hi|done].
Qed.

Lemma print_column_unchanged :
  changed_labels df_before df_after col = [] →
  print_column df_before df_after col = ([], Ok tt).
Proof.
  rewrite (changed_labels_series _ _ _ b a) by done. intros Hnil.
  unfold print_column. rewrite changed_mask_as_fmap, lift_Ok_bind.
  by rewrite any_fmap_false.
Qed.

Lemma print_column_same_labels :
  changed_labels df_before df_after col ≠ [] →
  same_labels df_before df_after →
  print_column df_before df_after col
  = ([EChangesIn col;
      comparison_table (selected b (changed_at b a)) (selected a (changed_at b a))
        ((λ s, selected s (changed_at b a)) <$> series_of df_before "name")],
     Ok tt).
Proof.
  rewrite (changed_labels_series _ _ _ b a) by done. intros Hne [Hba Hab].
  assert (Forall (λ l, l ∈ common) (df_index df_before)) as Hcb.
  { rewrite Forall_forall in Hba. apply Forall_forall. intros l Hl.
    apply elem_of_intersection. split; [done|by apply Hba]. }
  assert (Forall (λ l, l ∈ common) (df_index df_after)) as Hca.
  { rewrite Forall_forall in Hab. apply Forall_forall. intros l Hl.
    apply elem_of_intersection. split; [by apply Hab|done]. }
  unfold print_column. rewrite changed_mask_as_fmap, lift_Ok_bind.
  rewrite any_fmap_true by done.
  rewrite (loc_mask_aligned df_before col b) by done.
  rewrite (loc_mask_aligned df_after col a) by done.
  pose proof (name_column_wf df_before Hwb) as Hname.
  destruct (bool_decide ("name" ∈ df_columns df_before)).
  - destruct Hname as [sn Hsn].
    rewrite (loc_mask_aligned df_before "name" sn) by done. by rewrite Hsn.
  - by rewrite Hname.
Qed.

Lemma print_column_other_labels :
  changed_labels df_before df_after col ≠ [] →
  ¬ same_labels df_before df_after →
  print_column df_before df_after col = ([EChangesIn col], Raise IndexingError).
Proof.
  rewrite (changed_labels_series _ _ _ b a) by done. intros Hne Hsame.
  unfold print_column. rewrite changed_mask_as_fmap, lift_Ok_bind.
  rewrite any_fmap_true by done.
  destruct (decide (Forall (λ l, l ∈ df_index df_after) (df_index df_before)))
    as [Hba|Hba].
  - assert (¬ Forall (λ l, l ∈ df_index df_before) (df_index df_after)) as Hab
      by (intros ?; by apply Hsame).
    apply not_Forall_Exists in Hab; [|apply _].
    apply Exists_exists in Hab as (l & Hl & Hnl). simpl in Hnl.
    rewrite (loc_mask_aligned df_before col b); [|done..|].
    + rewrite (loc_mask_unaligned df_after col a l); [done..|].
      intros [? _]%elem_of_intersection. done.
    + rewrite Forall_forall in Hba. apply Forall_forall. intros l' Hl'.
      apply elem_of_intersection. split; [done|by apply Hba].
  - apply not_Forall_Exists in Hba; [|apply _].
    apply Exists_exists in Hba as (l & Hl & Hnl). simpl in Hnl.
    rewrite (loc_mask_unaligned df_before col b l); [done..|].
    intros [_ ?]%elem_of_intersection. done.
Qed.
End PrintColumn.

(** X7. What [print_column] does for a common column of two well-formed
    frames with distinct row labels, whose numbers float64 holds exactly:
    nothing when no cell differs on the shared labels; otherwise it prints
    [Changes in col:] and then either draws the table, when the two frames
    have the same row labels, or raises, when they have not. *)
Theorem print_column_result df_before df_after col :
  wf_df df_before → wf_df df_after →
  unique_labels df_before → unique_labels df_after →
  exact_cells df_before → exact_cells df_after →
  is_common df_before df_after col →
  (changed_labels df_before df_after col = [] →
     print_column df_before df_after col = ([], Ok tt))
  ∧ (changed_labels df_before df_after col ≠ [] → same_labels df_before df_after →
     ∃ headers cells,
       print_column df_before df_after col = ([EChangesIn col; ETable headers cells], Ok tt))
  ∧ (changed_labels df_before df_after col ≠ [] → ¬ same_labels df_before df_after →
     ∃ e, print_column df_before df_after col = ([EChangesIn col], Raise e)).
Proof.
  intros Hwb Hwa Hub Hua _ _ [Hcb Hca].
  destruct (series_of_wf _ _ (wf_columns _ Hwb) Hcb) as (b & Hb & _).
  destruct (series_of_wf _ _ (wf_columns _ Hwa) Hca) as (a & Ha & _).
  split_and!.
  - by apply (print_column_unchanged _ _ _ b a).
  - intros Hne Hsame.
    rewrite (print_column_same_labels _ _ _ b a) by done.
    destruct (series_of df_before "name"); simpl; by eexists _, _.
  - intros Hne Hsame. eexists. by apply (print_column_other_labels _ _ _ b a).
Qed.

Lemma intersection_self (idx : list Z) : NoDup idx → intersection idx idx = idx.
Proof.
  intros Hnd. rewrite intersection_wf by done. apply filter_all, Forall_forall. done.
Qed.

(** X8. The table of a column when the two frames have the same row index
    and their numbers are of those float64 holds exactly: one row for each
    row label at which the two cells differ for [!=], in the order of the
    index, with the cell before, the cell after and, when the first frame
    has a column [name], its cell in that column. *)
Theorem print_column_same_index df_before df_after col :
  wf_df df_before → wf_df df_after →
  unique_labels df_before →
  exact_cells df_before → exact_cells df_after →
  df_index df_before = df_index df_after →
  is_common df_before df_after col →
  changed_labels df_before df_after col
  = filter (λ l, py_ne (value_at df_before col l) (value_at df_after col l) = true)
      (df_index df_before)
  ∧ print_column df_before df_after col
    = if decide (changed_labels df_before df_after col = []) then ([], Ok tt)
      else ([EChangesIn col;
             ETable (table_headers df_before)
               (table_row df_before df_after col <$> changed_labels df_before df_after col)],
            Ok tt).
Proof.
  intros Hwb Hwa Hub _ _ Hidx [Hcb Hca].
  assert (unique_labels df_after) as Hua by (unfold unique_labels; by rewrite <-Hidx).
  destruct (series_of_wf _ _ (wf_columns _ Hwb) Hcb) as (b & Hb & Hib & _).
  destruct (series_of_wf _ _ (wf_columns _ Hwa) Hca) as (a & Ha & Hia & _).
  assert (intersection (df_index df_before) (df_index df_after) = df_index df_before) as Hint.
  { rewrite <-Hidx. by apply intersection_self. }
  split; [unfold changed_labels; by rewrite Hint|].
  case_decide as Hch; [by apply (print_column_unchanged _ _ _ b a)|].
  rewrite (print_column_same_labels _ _ _ b a); [|done..|]; first last.
  { unfold same_labels. rewrite <-Hidx. split; by apply Forall_forall. }
  do 2 f_equal. f_equal.
  assert (∀ s df c, series_of df c = Some s → df_index df = df_index df_before →
            selected s (changed_at b a)
            = mkSeries (s_dtype s) (changed_labels df_before df_after col)
                (reindex s (changed_labels df_before df_after col))) as Hsel.
  { intros s df c Hs Hi. unfold selected.
    destruct (series_of_Some _ _ _ Hs) as [_ ->].
    by rewrite (changed_labels_series _ _ _ b a), Hint, Hi. }
  rewrite (Hsel b df_before col), (Hsel a df_after col) by done.
  assert (comparison_index
            (mkSeries (s_dtype b) (changed_labels df_before df_after col)
               (reindex b (changed_labels df_before df_after col)))
            (mkSeries (s_dtype a) (changed_labels df_before df_after col)
               (reindex a (changed_labels df_before df_after col)))
          = changed_labels df_before df_after col) as Hci.
  { unfold comparison_index. simpl. by rewrite decide_True. }
  unfold table_headers, table_row.
  pose proof (name_column_wf df_before Hwb) as Hname.
  destruct (bool_decide ("name" ∈ df_columns df_before)).
  - destruct Hname as [sn Hsn]. rewrite Hsn. simpl.
    rewrite (Hsel sn df_before "name") by done.
    unfold comparison_table. rewrite Hci. f_equal.
    unfold comparison_cells. apply Forall_fmap_ext_1, Forall_forall. intros l Hl.
    csimpl. unfold reindex. rewrite !lookup_label_fmap by done. simpl.
    by rewrite (value_at_series _ _ _ l Hb), (value_at_series _ _ _ l Ha),
      (value_at_series _ _ _ l Hsn).
  - rewrite Hname. simpl.
    unfold comparison_table. rewrite Hci. f_equal.
    unfold comparison_cells. apply Forall_fmap_ext_1, Forall_forall. intros l Hl.
    csimpl. unfold reindex. rewrite !lookup_label_fmap by done. simpl.
    by rewrite (value_at_series _ _ _ l Hb), (value_at_series _ _ _ l Ha).
Qed.

(** ** The analysis and the decorator *)

Lemma io_bind_result_Ok {A B : Type} (m : IO A) (f : A → IO B) a :
  m.2 = Ok a → (m ≫= f).2 = (f a).2.
Proof. unfold mbind, IO_bind. by intros ->. Qed.

Lemma io_bind_result_Raise {A B : Type} (m : IO A) (f : A → IO B) e :
  m.2 = Raise e → (m ≫= f).2 = Raise e.
Proof. unfold mbind, IO_bind. by intros ->. Qed.

Lemma index_differs_without_same_labels df_before df_after :
  ¬ same_labels df_before df_after → df_index df_before ≠ df_index df_after.
Proof.
  intros Hsame Heq. apply Hsame. unfold same_labels. rewrite Heq.
  split; by apply Forall_forall.
Qed.

Lemma print_content_changes_result df_before df_after cols :
  wf_df df_before → wf_df df_after →
  unique_labels df_before → unique_labels df_after →
  Forall (is_common df_before df_after) cols →
  (_print_content_changes df_before df_after cols).2
  = if decide (¬ same_labels df_before df_after
               ∧ Exists (λ c, changed_labels df_before df_after c ≠ []) cols)
    then Raise IndexingError else Ok tt.
Proof.
  intros Hwb Hwa Hub Hua Hall. unfold _print_content_changes.
  induction Hall as [|c cols [Hcb Hca] _ IH]; simpl.
  - rewrite decide_False; [done|]. by intros [_ ?%Exists_nil].
  - destruct (series_of_wf _ _ (wf_columns _ Hwb) Hcb) as (b & Hb & _).
    destruct (series_of_wf _ _ (wf_columns _ Hwa) Hca) as (a & Ha & _).
    destruct (decide (changed_labels df_before df_after c = [])) as [Hch|Hch].
    { rewrite (print_column_unchanged _ _ _ b a) by done.
      rewrite (io_bind_result_Ok _ _ tt) by done. rewrite IH.
      apply decide_ext. rewrite Exists_cons. tauto. }
    destruct (decide (same_labels df_before df_after)) as [Hsame|Hsame].
    { rewrite (print_column_same_labels _ _ _ b a) by done.
      rewrite (io_bind_result_Ok _ _ tt) by done. rewrite IH.
      apply decide_ext. tauto. }
    rewrite (print_column_other_labels _ _ _ b a) by done.
    rewrite (io_bind_result_Raise _ _ IndexingError) by done.
    rewrite decide_True; [done|]. split; [done|]. by left.
Qed.

Section AnalysisMore.
Context {PS : PySet}.
Implicit Types (df_before df_after : DataFrame) (r : DataFrameChanges).

Lemma analyze_result df_before df_after function_name r :
  compare_df df_before df_after = Ok r →
  (analyze_dataframe_changes df_before df_after function_name).2
  = (_print_content_changes df_before df_after (content_changes r)).2.
Proof.
  intros Hr. unfold analyze_dataframe_changes. rewrite Hr, lift_Ok_bind.
  rewrite (io_bind_result_Ok _ _ tt);
    [|destruct function_name; [case_bool_decide|]; done].
  rewrite (io_bind_result_Ok _ _ tt); [|by case_bool_decide].
  case_bool_decide as Hcc.
  - by rewrite (io_bind_result_Ok _ _ tt).
  - by rewrite Hcc.
Qed.

Lemma misaligned_change_content_changes df_before df_after r :
  compare_df df_before df_after = Ok r →
  ¬ same_labels df_before df_after
  ∧ Exists (λ c, changed_labels df_before df_after c ≠ []) (content_changes r)
  ↔ misaligned_change df_before df_after.
Proof.
  intros Hr.
  destruct (compare_df_inv _ _ _ Hr) as (_ & _ & _ & M & C & _ & _ & F).
  unfold misaligned_change. split.
  - intros [Hsame Hex]. split; [done|].
    apply Exists_exists in Hex as (c & Hc & Hch). apply Exists_exists.
    apply C in Hc. rewrite M in Hc.
    apply list_elem_of_filter in Hc as [_ [Hcb Hca]%elem_of_common_cols]. by exists c.
  - intros [Hsame Hex]. split; [done|].
    apply Exists_exists in Hex as (c & Hcb & Hca & Hch). apply Exists_exists.
    exists c. split; [|done]. apply C. rewrite M. apply list_elem_of_filter.
    split; [|by apply elem_of_common_cols].
    rewrite Forall_forall in F.
    destruct (F c) as [[b Hb] [a Ha]]; [by apply elem_of_common_cols|].
    unfold content_differs. rewrite Hb, Ha.
    destruct (series_of_Some _ _ _ Hb) as [_ Hib].
    destruct (series_of_Some _ _ _ Ha) as [_ Hia].
    unfold Series_equals.
    rewrite (bool_decide_eq_false_2 (s_index b = s_index a)); [done|].
    rewrite Hib, Hia. by apply index_differs_without_same_labels.
Qed.

Lemma content_changes_common df_before df_after r :
  compare_df df_before df_after = Ok r →
  Forall (is_common df_before df_after) (content_changes r).
Proof.
  intros Hr. destruct (compare_df_inv _ _ _ Hr) as (_ & _ & _ & M & C & _).
  apply Forall_forall. intros c Hc%C. rewrite M in Hc.
  by apply list_elem_of_filter in Hc as [_ ?%elem_of_common_cols].
Qed.

(** X9. The analysis of two well-formed frames with distinct row labels,
    whose numbers float64 holds exactly, raises exactly when the two frames
    do not have the same row labels and some common column has a cell that
    differs for [!=] at a row label they share; otherwise it returns. *)
Theorem analysis_raises_iff df_before df_after function_name :
  wf_df df_before → wf_df df_after →
  unique_labels df_before → unique_labels df_after →
  exact_cells df_before → exact_cells df_after →
  (misaligned_change df_before df_after →
     ∃ e, (analyze_dataframe_changes df_before df_after function_name).2 = Raise e)
  ∧ (¬ misaligned_change df_before df_after →
     (analyze_dataframe_changes df_before df_after function_name).2 = Ok tt).
Proof.
  intros Hwb Hwa Hub Hua _ _.
  destruct (compare_df_total df_before df_after) as [r Hr]; [by apply wf_columns..|].
  rewrite (analyze_result _ _ _ r Hr).
  rewrite print_content_changes_result; [|done..|by apply content_changes_common].
  rewrite (decide_ext _ (misaligned_change df_before df_after))
    by (by apply misaligned_change_content_changes).
  split; intros Hm.
  - rewrite decide_True by done. by eexists.
  - by rewrite decide_False.
Qed.

(** X10. A decorated function called with a DataFrame and returning a
    DataFrame, both well formed, with distinct row labels and with numbers
    float64 holds exactly: the call returns what the function returns,
    unless the two frames do not have the same row labels and a common
    column has a cell that differs at a shared label; then it raises. *)
Theorem wrapper_result name func args kwargs df_before df_after :
  _find_dataframe_arg args kwargs = Some df_before →
  func args kwargs = Ok (ODataFrame df_after) →
  wf_df df_before → wf_df df_after →
  unique_labels df_before → unique_labels df_after →
  exact_cells df_before → exact_cells df_after →
  (misaligned_change df_before df_after →
     ∃ e, (track_dataframe_changes name func args kwargs).2 = Raise e)
  ∧ (¬ misaligned_change df_before df_after →
     (track_dataframe_changes name func args kwargs).2 = Ok (ODataFrame df_after)).
Proof.
  intros Hfind Hres Hwb Hwa Hub Hua _ _. unfold track_dataframe_changes.
  rewrite (wrapper_with_dataframe _ _ _ _ _ df_before df_after) by done.
  destruct (compare_df_total df_before df_after) as [r Hr]; [by apply wf_columns..|].
  rewrite (analyze_result _ _ _ r Hr).
  rewrite print_content_changes_result; [|done..|by apply content_changes_common].
  rewrite (decide_ext _ (misaligned_change df_before df_after))
    by (by apply misaligned_change_content_changes).
  split; intros Hm.
  - rewrite decide_True by done. by eexists.
  - by rewrite decide_False.
Qed.
End AnalysisMore.

Lemma io_bind_out_Ok {A B : Type} (m : IO A) (f : A → IO B) a :
  m.2 = Ok a → (m ≫= f).1 = m.1 ++ (f a).1.
Proof. unfold mbind, IO_bind. by intros ->. Qed.

Lemma print_content_changes_no_row_line df_before df_after cols :
  filter is_row_line (_print_content_changes df_before df_after cols).1 = [].
Proof.
  apply filter_none, Forall_forall. intros e (c & _ & He)%io_for_each_out.
  apply print_column_out in He as [->|(? & ? & ->)]; simpl; tauto.
Qed.

Section OutputMore.
Context {PS : PySet}.

(** X11. The analysis prints one line on the number of rows and no more:
    [No row changes detected] when the two frames have as many rows, and
    otherwise [Rows:] with the two counts and their difference, after
    minus before. *)
Theorem one_row_line df_before df_after function_name r :
  compare_df df_before df_after = Ok r →
  filter is_row_line (analyze_dataframe_changes df_before df_after function_name).1
  = [row_line df_before df_after].
Proof.
  intros Hr. destruct (compare_df_inv _ _ _ Hr) as (R & _).
  unfold analyze_dataframe_changes. rewrite Hr, lift_Ok_bind.
  rewrite (io_bind_out_Ok _ _ tt);
    [|destruct function_name; [case_bool_decide|]; done].
  rewrite (io_bind_out_Ok _ _ tt); [|by case_bool_decide].
  rewrite !filter_app.
  assert (filter is_row_line
            (match function_name with
             | Some name => if bool_decide (name ≠ "") then print (EFunction name) else mret tt
             | None => mret tt
             end).1 = []) as ->.
  { destruct function_name; [case_bool_decide|]; done. }
  assert (filter is_row_line
            (if bool_decide (content_changes r ≠ [])
             then print (EContentChanges (content_changes r)) ≫= λ _,
                    _print_content_changes df_before df_after (content_changes r)
             else mret tt).1 = []) as ->.
  { case_bool_decide; [|done].
    rewrite (io_bind_out_Ok _ _ tt) by done. rewrite filter_app.
    by rewrite print_content_changes_no_row_line. }
  rewrite app_nil_r. simpl. rewrite R. unfold row_line, RowChanges_init. simpl.
  case_bool_decide as Hd.
  - rewrite decide_False by lia. done.
  - rewrite decide_True by lia. done.
Qed.
End OutputMore.

Lemma first_dataframe_spec objs :
  match first_dataframe objs with
  | Some df => ∃ pre post, objs = pre ++ ODataFrame df :: post ∧ no_dataframe pre
  | None => no_dataframe objs
  end.
Proof.
  unfold no_dataframe. induction objs as [|o objs IH]; simpl; [constructor|].
  destruct o as [df| |]; simpl.
  - exists [], objs. split; [done|constructor].
  - destruct (first_dataframe objs) as [df|].
    + destruct IH as (pre & post & -> & Hpre). exists (OValue v :: pre), post.
      split; [done|]. by constructor.
    + by constructor.
  - destruct (first_dataframe objs) as [df|].
    + destruct IH as (pre & post & -> & Hpre). exists (ONone :: pre), post.
      split; [done|]. by constructor.
    + by constructor.
Qed.

(** X12. [_find_dataframe_arg] returns the first DataFrame among the
    positional arguments; when there is none, the first among the values of
    the keyword arguments; and [None] only when no argument of either kind
    is a DataFrame. *)
Theorem find_dataframe_arg_first args kwargs :
  match _find_dataframe_arg args kwargs with
  | Some df =>
      (∃ pre post, args = pre ++ ODataFrame df :: post ∧ no_dataframe pre)
      ∨ (no_dataframe args
         ∧ ∃ pre post, kwargs.*2 = pre ++ ODataFrame df :: post ∧ no_dataframe pre)
  | None => no_dataframe args ∧ no_dataframe kwargs.*2
  end.
Proof.
  unfold _find_dataframe_arg.
  pose proof (first_dataframe_spec args) as Hargs.
  destruct (first_dataframe args) as [df|]; [by left|].
  pose proof (first_dataframe_spec kwargs.*2) as Hkw.
  destruct (first_dataframe kwargs.*2) as [df|]; [by right|done].
Qed.

(** X13. A call without a DataFrame among its arguments, or whose function
    does not return a DataFrame (it returns something else, or raises):
    the decorated function prints nothing and returns or raises what the
    function does, whatever the analysis would do. *)
Theorem wrapper_leaves_other_calls_alone
    (analyze : DataFrame → DataFrame → option string → IO unit)
    name func args kwargs :
  _find_dataframe_arg args kwargs = None
  ∨ (∀ df, func args kwargs ≠ Ok (ODataFrame df)) →
  wrapper_with analyze name func args kwargs = lift (func args kwargs).
Proof.
  intros [Hnone|Hres].
  - by apply wrapper_without_dataframe.
  - destruct (func args kwargs) as [result|e] eqn:Hf.
    + apply wrapper_other_result; [done|].
      destruct result as [df| |]; [|done..]. by destruct (Hres df).
    + by apply wrapper_func_raises.
Qed.

Lemma print_content_changes_lines df_before df_after cols :
  wf_df df_before → wf_df df_after →
  unique_labels df_before → unique_labels df_after →
  same_labels df_before df_after →
  Forall (is_common df_before df_after) cols →
  omap changes_in (_print_content_changes df_before df_after cols).1
  = filter (λ c, changed_labels df_before df_after c ≠ []) cols
  ∧ omap content_line (_print_content_changes df_before df_after cols).1 = []
  ∧ (_print_content_changes df_before df_after cols).2 = Ok tt.
Proof.
  intros Hwb Hwa Hub Hua Hsame Hall. unfold _print_content_changes.
  induction Hall as [|c cols [Hcb Hca] _ (IH1 & IH2 & IH3)]; simpl; [done|].
  destruct (series_of_wf _ _ (wf_columns _ Hwb) Hcb) as (b & Hb & _).
  destruct (series_of_wf _ _ (wf_columns _ Hwa) Hca) as (a & Ha & _).
  rewrite filter_cons.
  destruct (decide (changed_labels df_before df_after c = [])) as [Hch|Hch].
  - rewrite (print_column_unchanged _ _ _ b a) by done.
    rewrite (io_bind_out_Ok _ _ tt), (io_bind_result_Ok _ _ tt) by done. simpl.
    by rewrite decide_False by (by intros ?).
  - rewrite (print_column_same_labels _ _ _ b a) by done.
    rewrite (io_bind_out_Ok _ _ tt), (io_bind_result_Ok _ _ tt) by done.
    rewrite decide_True by done. rewrite !omap_app, IH1, IH2.
    by destruct (series_of df_before "name").
Qed.

Section LinesMore.
Context {PS : PySet}.

(** X14. The lines of the analysis of two well-formed frames with the same
    distinct row labels, whose numbers float64 holds exactly: one
    [Content changes in columns:] line with [content_changes] when it is
    not empty, and a [Changes in col:] line, in the order of
    [content_changes], for each of its columns with a cell that differs
    for [!=]; the analysis returns. *)
Theorem analysis_lines df_before df_after function_name r :
  wf_df df_before → wf_df df_after →
  unique_labels df_before → unique_labels df_after →
  exact_cells df_before → exact_cells df_after →
  same_labels df_before df_after →
  compare_df df_before df_after = Ok r →
  let out := analyze_dataframe_changes df_before df_after function_name in
  omap content_line out.1
  = (if decide (content_changes r = []) then [] else [content_changes r])
  ∧ omap changes_in out.1
    = filter (λ c, changed_labels df_before df_after c ≠ []) (content_changes r)
  ∧ out.2 = Ok tt.
Proof.
  intros Hwb Hwa Hub Hua _ _ Hsame Hr out. subst out.
  destruct (print_content_changes_lines df_before df_after (content_changes r))
    as (L1 & L2 & L3); [done..|by apply content_changes_common|].
  split_and!; [| |by rewrite (analyze_result _ _ _ r Hr)].
  - unfold analyze_dataframe_changes. rewrite Hr, lift_Ok_bind.
    rewrite (io_bind_out_Ok _ _ tt);
      [|destruct function_name; [case_bool_decide|]; done].
    rewrite (io_bind_out_Ok _ _ tt); [|by case_bool_decide].
    rewrite !omap_app.
    assert (omap content_line
              (match function_name with
               | Some name => if bool_decide (name ≠ "") then print (EFunction name) else mret tt
               | None => mret tt
               end).1 = []) as ->
      by (destruct function_name; [case_bool_decide|]; done).
    destruct (bool_decide (difference (rows r) ≠ 0)); simpl;
      case_bool_decide as Hcc.
    all: try by rewrite decide_True.
    all: rewrite (io_bind_out_Ok _ _ tt) by done; rewrite omap_app, L2;
      by rewrite decide_False.
  - unfold analyze_dataframe_changes. rewrite Hr, lift_Ok_bind.
    rewrite (io_bind_out_Ok _ _ tt);
      [|destruct function_name; [case_bool_decide|]; done].
    rewrite (io_bind_out_Ok _ _ tt); [|by case_bool_decide].
    rewrite !omap_app.
    assert (omap changes_in
              (match function_name with
               | Some name => if bool_decide (name ≠ "") then print (EFunction name) else mret tt
               | None => mret tt
               end).1 = []) as ->
      by (destruct function_name; [case_bool_decide|]; done).
    destruct (bool_decide (difference (rows r) ≠ 0)); simpl;
      case_bool_decide as Hcc.
    all: try by rewrite Hcc.
    all: rewrite (io_bind_out_Ok _ _ tt) by done; by rewrite omap_app, L1.
Qed.
End LinesMore.

(** ** The further properties at work *)

Ltac by_computation := refine (bool_decide_unpack _ _); vm_compute; exact I.

Lemma schema_changes_entries_witness :
  schema_changes Samples.schema_report !! "value"
  = match series_of Fixtures.int_value "value", series_of Fixtures.str_value "value" with
    | Some b, Some a =>
        if decide (s_dtype b = s_dtype a) then None
        else Some (dtype_str (s_dtype b), dtype_str (s_dtype a))
    | _, _ => None
    end
  ∧ ∀ p, schema_changes Samples.schema_report !! "value" = Some p →
      ∃ b a, series_of Fixtures.int_value "value" = Some b
             ∧ series_of Fixtures.str_value "value" = Some a
             ∧ s_dtype b ≠ s_dtype a
             ∧ p = (dtype_str (s_dtype b), dtype_str (s_dtype a)).
Proof.
  apply (schema_changes_entries (PS := slot_set) Fixtures.int_value Fixtures.str_value).
  vm_compute. reflexivity.
Defined.

Lemma schema_change_is_content_change_witness :
  "value" ∈ modified (columns Samples.schema_report)
  ∧ "value" ∈ content_changes Samples.schema_report.
Proof.
  apply (schema_change_is_content_change (PS := slot_set)
           Fixtures.int_value Fixtures.str_value).
  - vm_compute. reflexivity.
  - exists ("int64", "object"). vm_compute. reflexivity.
Defined.

Lemma added_removed_members_witness :
  (∀ x, x ∈ added (columns Samples.columns_report) ↔
        x ∈ df_columns Fixtures.new_col ∧ x ∉ df_columns Fixtures.old_col)
  ∧ (∀ x, x ∈ removed (columns Samples.columns_report) ↔
          x ∈ df_columns Fixtures.old_col ∧ x ∉ df_columns Fixtures.new_col)
  ∧ NoDup (added (columns Samples.columns_report))
  ∧ NoDup (removed (columns Samples.columns_report)).
Proof.
  apply (added_removed_members (PS := slot_set) Fixtures.old_col Fixtures.new_col).
  vm_compute. reflexivity.
Defined.

Lemma index_change_marks_every_common_column_witness :
  "id" ∈ modified (columns Samples.rows_report)
  ∧ "id" ∈ content_changes Samples.rows_report.
Proof.
  apply (index_change_marks_every_common_column (PS := slot_set)
           Fixtures.three_rows Fixtures.two_rows).
  - vm_compute. reflexivity.
  - simpl. discriminate.
  - unfold is_common. split; by_computation.
Defined.

Lemma compare_df_swap_witness :
  difference (rows Samples.schema_report_back) = - difference (rows Samples.schema_report)
  ∧ (∀ x, x ∈ removed (columns Samples.schema_report) ↔
          x ∈ added (columns Samples.schema_report_back))
  ∧ (∀ x, x ∈ modified (columns Samples.schema_report) ↔
          x ∈ modified (columns Samples.schema_report_back))
  ∧ (∀ x, x ∈ content_changes Samples.schema_report ↔
          x ∈ content_changes Samples.schema_report_back)
  ∧ (∀ x p q, schema_changes Samples.schema_report !! x = Some (p, q) ↔
              schema_changes Samples.schema_report_back !! x = Some (q, p)).
Proof.
  apply (compare_df_swap (PS := slot_set) Fixtures.int_value Fixtures.str_value).
  - vm_compute. reflexivity.
  - vm_compute. reflexivity.
Defined.

Lemma print_column_result_witness :
  ∃ e, print_column Fixtures.three_rows Fixtures.two_rows_changed "value"
       = ([EChangesIn "value"], Raise e).
Proof.
  apply (print_column_result Fixtures.three_rows Fixtures.two_rows_changed "value").
  - wf_by_computation.
  - wf_by_computation.
  - unfold unique_labels. by_computation.
  - unfold unique_labels. by_computation.
  - by_computation.
  - by_computation.
  - unfold is_common. split; by_computation.
  - vm_compute. discriminate.
  - by_computation.
Defined.

Lemma print_column_same_index_witness :
  changed_labels Fixtures.people Fixtures.people_later "height"
  = filter (λ l, py_ne (value_at Fixtures.people "height" l)
                       (value_at Fixtures.people_later "height" l) = true)
      (df_index Fixtures.people)
  ∧ print_column Fixtures.people Fixtures.people_later "height"
    = if decide (changed_labels Fixtures.people Fixtures.people_later "height" = [])
      then ([], Ok tt)
      else ([EChangesIn "height";
             ETable (table_headers Fixtures.people)
               (table_row Fixtures.people Fixtures.people_later "height"
                  <$> changed_labels Fixtures.people Fixtures.people_later "height")],
            Ok tt).
Proof.
  apply (print_column_same_index Fixtures.people Fixtures.people_later "height").
  - exact wf_people.
  - exact wf_people_later.
  - unfold unique_labels. by_computation.
  - by_computation.
  - by_computation.
  - reflexivity.
  - unfold is_common. split; by_computation.
Defined.

Lemma analysis_raises_iff_witness :
  ∃ e, (analyze_dataframe_changes (PS := slot_set)
          Fixtures.three_rows Fixtures.two_rows_changed None).2 = Raise e.
Proof.
  apply (analysis_raises_iff (PS := slot_set) Fixtures.three_rows Fixtures.two_rows_changed).
  - wf_by_computation.
  - wf_by_computation.
  - unfold unique_labels. by_computation.
  - unfold unique_labels. by_computation.
  - by_computation.
  - by_computation.
  - by_computation.
Defined.

Lemma wrapper_result_witness :
  (track_dataframe_changes (PS := slot_set) "birthday" Samples.birthday
     [ODataFrame Fixtures.people] []).2
  = Ok (ODataFrame Fixtures.people_later).
Proof.
  apply (wrapper_result (PS := slot_set) "birthday" Samples.birthday
           [ODataFrame Fixtures.people] [] Fixtures.people Fixtures.people_later).
  - reflexivity.
  - reflexivity.
  - exact wf_people.
  - exact wf_people_later.
  - unfold unique_labels. by_computation.
  - unfold unique_labels. by_computation.
  - by_computation.
  - by_computation.
  - by_computation.
Defined.

Lemma one_row_line_witness :
  filter is_row_line
    (analyze_dataframe_changes (PS := slot_set)
       Fixtures.three_rows Fixtures.two_rows (Some "drop")).1
  = [row_line Fixtures.three_rows Fixtures.two_rows].
Proof.
  apply (one_row_line (PS := slot_set) Fixtures.three_rows Fixtures.two_rows (Some "drop")
           Samples.rows_report).
  vm_compute. reflexivity.
Defined.

Lemma wrapper_leaves_other_calls_alone_witness :
  wrapper_with (analyze_dataframe_changes (PS := slot_set)) "count_rows" Samples.count_rows
    [ODataFrame Fixtures.three_rows] []
  = lift (Samples.count_rows [ODataFrame Fixtures.three_rows] []).
Proof.
  apply wrapper_leaves_other_calls_alone. right. intros df. simpl. discriminate.
Defined.


Lemma analysis_lines_witness :
  let out := analyze_dataframe_changes (PS := slot_set)
               Fixtures.people Fixtures.people_later None in
  omap content_line out.1
  = (if decide (content_changes
                  (Samples.report_of
                     (compare_df (PS := slot_set) Fixtures.people Fixtures.people_later)) = [])
     then []
     else [content_changes
             (Samples.report_of
                (compare_df (PS := slot_set) Fixtures.people Fixtures.people_later))])
  ∧ omap changes_in out.1
    = filter (λ c, changed_labels Fixtures.people Fixtures.people_later c ≠ [])
        (content_changes
           (Samples.report_of
              (compare_df (PS := slot_set) Fixtures.people Fixtures.people_later)))
  ∧ out.2 = Ok tt.
Proof.
  apply (analysis_lines (PS := slot_set) Fixtures.people Fixtures.people_later None).
  - exact wf_people.
  - exact wf_people_later.
  - unfold unique_labels. by_computation.
  - unfold unique_labels. by_computation.
  - by_computation.
  - by_computation.
  - by_computation.
  - vm_compute. reflexivity.
Defined.

Lemma compare_df_raises_iff_witness :
  ∃ e, compare_df (PS := slot_set) Samples.twice_id Fixtures.int_value = Raise e.
Proof.
  apply (compare_df_raises_iff (PS := slot_set) Samples.twice_id Fixtures.int_value).
  exists "id". split.
  - unfold is_common. split; by_computation.
  - left. unfold repeated. by_computation.
Defined.
